(** * The REST-client pipeline of "Functional Programming Techniques in Python"

    A shallow embedding of the notebook that builds a REST client out of
    closures and function composition ([to_get], [compose], the [Todo]
    dataclass, the error handler, the loggers and the two decoders), and
    the properties of that code.

    Conventions of the embedding.
    - A Python [dict] of header names to header values is a
      [gmap string string]; [d.update(h)] is the left-biased union
      [h ∪ d].
    - The default header dictionary handed to [to_get] is a shared mutable
      object: it lives in a store ([heap]) and the closure holds its
      address.  Python's [None] for that parameter is [None : option loc].
    - A function of the response pipeline may print and may raise: it is a
      function into [Out], a writer of console lines over results.
    - A call of the configured [f] additionally updates the store and
      hands a request to the HTTP library: it is a function into [M], a
      state monad over [world].
    - [str.format] calls are kept as the tuple of their arguments (the
      constructor names the format string). *)

From Stdlib Require Import ZArith Ascii String List.
From Stdlib.Strings Require Import Byte.
From stdpp Require Import gmap strings list fin_maps pretty.

Set Warnings "-register-all".
Set Default Proof Using "Type".

(** ** Python values *)

(** What [response.json()] can return: the Python objects the [json]
    module builds. A float is kept as its literal. *)
Inductive value :=
| VNone
| VBool (b : bool)
| VInt (z : Z)
| VFloat (lit : string)
| VStr (s : string)
| VList (l : list value)
| VDict (d : gmap string value).

(** The classes named in the annotations of [Todo]. *)
Inductive pytype := int | str | bool_.

(** [isinstance(attr, field.type)]; [bool] is a subclass of [int]. *)
Definition isinstance (attr : value) (ty : pytype) : bool :=
  match ty, attr with
  | int, VInt _ => true
  | int, VBool _ => true
  | str, VStr _ => true
  | bool_, VBool _ => true
  | _, _ => false
  end.

(** ** Exceptions and results *)

Inductive exn :=
| Exception (url : string) (status_code : Z) (excerpt : list byte)
    (* Exception("Failed request to {} status:{} {}".format(...)) *)
| TypeError_field (name : string) (attr : value) (ty : pytype)
    (* TypeError("Field {0.name} (value='{2}') is of type {1}, should be {0.type}") *)
| TypeError (msg : string)
| KeyError (key : string)
| AttributeError (attr : string)
| ValueError (msg : string)
| RequestException (msg : string).

Definition result (A : Type) : Type := exn + A.

Definition rbind {A B} (c : result A) (k : A -> result B) : result B :=
  match c with
  | inl e => inl e
  | inr a => k a
  end.

(** ** Console output *)

Inductive output :=
| MakingRequest (url : string) (headers : gmap string string)
    (* "Making request {} with headers:{}" *)
| LogLine (now url : string) (status_code : Z) (elapsed : string).
    (* "{} URL:{} response:{} in {} sec" *)

(** A computation that prints lines and returns or raises. *)
Definition Out (A : Type) : Type := list output * result A.

Definition oret {A} (a : A) : Out A := ([], inr a).
Definition oraise {A} (e : exn) : Out A := ([], inl e).
Definition print (o : output) : Out unit := ([o], inr tt).
Definition lift_result {A} (r : result A) : Out A := ([], r).

Definition obind {A B} (c : Out A) (k : A -> Out B) : Out B :=
  match c with
  | (o1, inl e) => (o1, inl e)
  | (o1, inr a) => let '(o2, r) := k a in (o1 ++ o2, r)
  end.

(** [try: c except (KeyError, AttributeError): handler] *)
Definition try_except_KeyError_AttributeError {A} (c : Out A) (handler : Out A) : Out A :=
  match c with
  | (o1, inl (KeyError _)) | (o1, inl (AttributeError _)) =>
      let '(o2, r) := handler in (o1 ++ o2, r)
  | _ => c
  end.

(** ** Responses *)

(** The attributes of a [requests.Response] the notebook reads. [ok] is the
    library's success flag, [elapsed] stands for
    [elapsed.total_seconds()], [content] is the raw body, and [json_body]
    is what [.json()] decodes ([None]: the body is not JSON, [.json()]
    raises [ValueError]). *)
Module Response.
Record t := mk {
  url : string;
  status_code : Z;
  ok : bool;
  elapsed : string;
  content : list byte;
  json_body : option value
}.

Definition json (r : t) : result value :=
  match json_body r with
  | Some d => inr d
  | None => inl (ValueError "Expecting value")
  end.
End Response.

(** ** The Todo dataclass *)

Module Todo.
Record t := mk {
  id : value;
  user_id : value;
  title : value;
  completed : value
}.

Record field := mk_field {
  name : string;
  type : pytype;
  getattr : t -> value
}.

(** [dataclasses.fields(instance)], in declaration order. *)
Definition fields : list field :=
  [ mk_field "id" int id;
    mk_field "user_id" int user_id;
    mk_field "title" str title;
    mk_field "completed" bool_ completed ].

(** The loop of [validate], over the fields still to visit. *)
Fixpoint validate_from (fs : list field) (instance : t) : result unit :=
  match fs with
  | [] => inr tt
  | f :: fs' =>
      let attr := getattr f instance in
      if isinstance attr (type f)
      then validate_from fs' instance
      else inl (TypeError_field (name f) attr (type f))
  end.

Definition validate (instance : t) : result unit :=
  validate_from fields instance.

(** The generated [__init__] followed by [__post_init__]. *)
Definition init (id user_id title completed : value) : result t :=
  let self := mk id user_id title completed in
  rbind (validate self) (fun _ => inr self).

(** [d[key]] for a string key. *)
Definition subscript (d : value) (key : string) : result value :=
  match d with
  | VDict m =>
      match m !! key with
      | Some v => inr v
      | None => inl (KeyError key)
      end
  | VList _ => inl (TypeError "list indices must be integers or slices, not str")
  | VStr _ => inl (TypeError "string indices must be integers")
  | _ => inl (TypeError "object is not subscriptable")
  end.

Definition from_d (d : value) : result t :=
  rbind (subscript d "id") (fun a =>
  rbind (subscript d "userId") (fun b =>
  rbind (subscript d "title") (fun c =>
  rbind (subscript d "completed") (fun e =>
  init a b c e)))).
End Todo.

(** ** Objects flowing through the response pipeline *)

Inductive pyobj :=
| OResponse (r : Response.t)
| OTodo (t : Todo.t)
| OValue (v : value).

Definition None_ : pyobj := OValue VNone.

(** A stage of the pipeline: a unary Python function. *)
Definition stage : Type := pyobj -> Out pyobj.

(** Attribute access [response.<attr>] on whatever object arrives. *)
Definition as_response (attr : string) (response : pyobj) : Out Response.t :=
  match response with
  | OResponse r => oret r
  | _ => oraise (AttributeError attr)
  end.

(** ** The stages of the notebook *)

Definition null_tranform : stage := fun response => oret response.

Definition null_logger : stage := fun response => oret response.

(** [now] is the reading of [datetime.datetime.now().isoformat()]. *)
Definition simple_logger (now : string) : stage := fun response =>
  obind (as_response "elapsed" response) (fun r =>
  obind (print (LogLine now (Response.url r) (Response.status_code r)
                  (Response.elapsed r))) (fun _ =>
  oret response)).

Definition default_error_handler : stage := fun response =>
  obind (as_response "ok" response) (fun r =>
  if negb (Response.ok r)
  then oraise (Exception (Response.url r) (Response.status_code r)
                 (take 25 (Response.content r)))
  else oret response).

Definition to_todo : stage := fun response =>
  obind (as_response "json" response) (fun r =>
  obind (lift_result (Response.json r)) (fun d =>
  obind (lift_result (Todo.from_d d)) (fun t =>
  oret (OTodo t)))).

Definition to_todo_or_none : stage := fun response =>
  try_except_KeyError_AttributeError (to_todo response) (oret None_).

(** ** Composition *)

(** [functools.reduce(function, sequence)] without an initial value. *)
Definition reduce {A} (function : A -> A -> A) (sequence : list A) : result A :=
  match sequence with
  | [] => inl (TypeError "reduce() of empty sequence with no initial value")
  | x :: xs => inr (fold_left function xs x)
  end.

Definition compose_two (f g : stage) : stage :=
  fun x => obind (g x) f.

(** [compose] over its argument list: [[f, g, h]] will be [f(g(h(x)))]. *)
Definition compose (funcs : list stage) : result stage :=
  reduce compose_two funcs.

(** ** The store, the network and the console *)

Abbreviation loc := nat.

(** The keyword arguments of a call [f(segment, **kw)]: the two the
    notebook reads and the rest, which is forwarded untouched. *)
Record kwargs := mk_kwargs {
  kw_headers : option (gmap string string);
  kw_transform : option stage;
  kw_rest : gmap string value
}.

(** [kw.pop('transform', ...)]: what is left in [kw]. *)
Definition pop_transform (kw : kwargs) : kwargs :=
  mk_kwargs (kw_headers kw) None (kw_rest kw).

(** A call of [requests.get] as the HTTP library receives it. *)
Record Request := mk_Request {
  req_url : string;
  req_headers : option (gmap string string);
  req_kw : gmap string value
}.

Record world := mk_world {
  heap : gmap loc (gmap string string);
  sent : list Request;
  stdout : list output
}.

Definition M (A : Type) : Type := world -> result A * world.

Definition ret {A} (a : A) : M A := fun w => (inr a, w).
Definition raise {A} (e : exn) : M A := fun w => (inl e, w).
Definition lift {A} (r : result A) : M A := fun w => (r, w).

Definition bind {A B} (c : M A) (k : A -> M B) : M B :=
  fun w =>
    match c w with
    | (inl e, w') => (inl e, w')
    | (inr a, w') => k a w'
    end.

Notation "'let*' x ':=' c 'in' k" := (bind c (fun x => k))
  (at level 10, x name, c at level 100, k at level 200).

(** Running a stage: its lines reach the console. *)
Definition lift_out {A} (c : Out A) : M A :=
  fun w => (c.2, mk_world (heap w) (sent w) (stdout w ++ c.1)).

(** The dictionary a reference designates ([None] stays [None]). *)
Definition deref (headers : option loc) (w : world) : option (gmap string string) :=
  (fun l => heap w !!! l) <$> headers.

(** [headers.update(h)]: in place, on the object [headers] refers to
    (a reference held by a closure always designates a dictionary of the
    store); [None] has no [update]. *)
Definition dict_update (headers : option loc) (h : gmap string string) : M unit :=
  fun w =>
    match headers with
    | None => (inl (AttributeError "update"), w)
    | Some l => (inr tt, mk_world (alter (union h) l (heap w)) (sent w) (stdout w))
    end.

Section Client.

(** The network: what the server answers to a request, given the
    requests made before it; a transport failure is an exception. *)
Variable transport : list Request -> Request -> result Response.t.

(** [requests.get(url, **kw)] where [kw['headers']] is [headers].
    [requests] accepts no [transform] keyword: the call is rejected
    before anything is sent. *)
Definition requests_get (url : string) (headers : option loc) (kw : kwargs) : M pyobj :=
  fun w =>
    match kw_transform kw with
    | Some _ =>
        (inl (TypeError "request() got an unexpected keyword argument 'transform'"), w)
    | None =>
        let request := mk_Request url (deref headers w) (kw_rest kw) in
        (rbind (transport (sent w) request) (fun r => inr (OResponse r)),
         mk_world (heap w) (sent w ++ [request]) (stdout w))
    end.

(** Iteration #1, second cell: default headers added. *)
Definition to_get_iter1 (base_url : string) (headers : option loc)
  : string -> kwargs -> M pyobj :=
  fun segment kw =>
    let h := default ∅ (kw_headers kw) in
    let* _ := dict_update headers h in
    let url := String.concat "/" [base_url; segment] in
    let* _ := (fun w => lift_out (print (MakingRequest url (default ∅ (deref headers w)))) w) in
    requests_get url headers kw.

(** The final [to_get]: headers, error handler, logger and transform. *)
Definition to_get (base_url : string) (headers : option loc)
    (error_handler logger : option stage) : string -> kwargs -> M pyobj :=
  fun segment kw =>
    let url := String.concat "/" [base_url; segment] in
    let h := default ∅ (kw_headers kw) in
    let* _ := dict_update headers h in
    let transform_func := default null_tranform (kw_transform kw) in
    let kw := pop_transform kw in
    let err_handler :=
      match error_handler with None => null_tranform | Some eh => eh end in
    let logger_func :=
      match logger with None => null_tranform | Some lg => lg end in
    let* transform := lift (compose [transform_func; err_handler; logger_func]) in
    let* response := requests_get url headers kw in
    lift_out (transform response).

End Client.

(** ** Vocabulary for the statements *)

(** The post-processing chain [to_get] builds for a call. *)
Definition chain (error_handler logger : option stage) (kw : kwargs) : stage :=
  fun raw =>
    obind (default null_tranform logger raw) (fun logged =>
    obind (default null_tranform error_handler logged) (fun checked =>
    default null_tranform (kw_transform kw) checked)).

(** The request a call hands to the HTTP library when the default header
    dictionary holds [d] at the moment of the call. *)
Definition dispatched (base_url segment : string) (kw : kwargs)
    (d : gmap string string) : Request :=
  mk_Request (base_url +:+ "/" +:+ segment)
             (Some (default ∅ (kw_headers kw) ∪ d)) (kw_rest kw).

(** A logger in the notebook's sense ([null_logger], [simple_logger]):
    given a response, it hands that response back. *)
Definition returns_response (logger : stage) : Prop :=
  forall r, (logger (OResponse r)).2 = inr (OResponse r).

(** Calls made one after the other on one configured function, the caller
    carrying on whatever a call returns or raises. *)
Definition run_calls (f : string -> kwargs -> M pyobj)
    (calls : list (string * kwargs)) (w : world) : world :=
  fold_left (fun w c => (f c.1 c.2 w).2) calls w.

(** The header overlays of a list of calls laid over [d], earliest first. *)
Definition accumulated (calls : list (string * kwargs))
    (d : gmap string string) : gmap string string :=
  fold_left (fun acc c => default ∅ (kw_headers c.2) ∪ acc) calls d.

(** Reading a URL around the place where [base_url] ends. *)
Definition is_separator (c : option ascii) : bool :=
  match c with
  | Some c => Ascii.eqb c "/"
  | None => false
  end.

Definition startswith_separator (s : string) : bool :=
  is_separator (String.get 0 s).

Definition endswith_separator (s : string) : bool :=
  match String.length s with
  | 0 => false
  | S j => is_separator (String.get j s)
  end.

(** [url] has a separator right before or right after the one that
    follows its first [String.length base_url] characters. *)
Definition separator_doubled_at_join (base_url url : string) : bool :=
  let i := String.length base_url in
  is_separator (String.get (S i) url)
  || match i with
     | 0 => false
     | S j => is_separator (String.get j url)
     end.

(** ** The notebook's session: server, defaults and sample bodies *)

Module Demo.
Definition BASE_URL : string := "https://jsonplaceholder.typicode.com".

Definition DEFAULT_HEADER : gmap string string := {[ "x-my-header" := "12345" ]}.

Definition first_todo_d : gmap string value :=
  {[ "userId" := VInt 1; "id" := VInt 1;
     "title" := VStr "delectus aut autem"; "completed" := VBool false ]}.

Definition first_todo : value := VDict first_todo_d.

Definition found (url : string) : Response.t :=
  Response.mk url 200 true "0.067777" [] (Some first_todo).

Definition not_found (url : string) : Response.t :=
  Response.mk url 404 false "0.244881" [x7b; x7d] (Some (VDict ∅)).

(** The JSON placeholder service, as far as the notebook visits it:
    [todos/1] exists, anything else is a 404 with body [{}]. *)
Definition server (history : list Request) (request : Request) : result Response.t :=
  if String.eqb (req_url request) (BASE_URL +:+ "/todos/1")
  then inr (found (req_url request))
  else inr (not_found (req_url request)).

(** A body whose [id] is a string. *)
Definition mistyped_todo_d : gmap string value :=
  {[ "userId" := VInt 1; "id" := VStr "1";
     "title" := VStr "delectus aut autem"; "completed" := VBool false ]}.

Definition mistyped (url : string) : Response.t :=
  Response.mk url 200 true "0.05" [] (Some (VDict mistyped_todo_d)).

(** The store right after [DEFAULT_HEADER] has been created. *)
Definition w0 : world := mk_world {[ 0 := DEFAULT_HEADER ]} [] [].

Definition no_kw : kwargs := mk_kwargs None None ∅.
Definition with_transform (transform : stage) : kwargs := mk_kwargs None (Some transform) ∅.
Definition with_headers (h : gmap string string) : kwargs := mk_kwargs (Some h) None ∅.

Definition now : string := "2019-02-15T03:22:44.295066".
End Demo.


(** ** The rest of the REST notebook *)

(** Iteration #2: the first [compose], of two functions, and the
    transform built with it. *)
Module Iteration2.
Definition compose (f g : stage) : stage :=
  fun x => obind (g x) f.

Definition handle_error_to_todo : stage :=
  compose to_todo default_error_handler.
End Iteration2.

(** [for x in d] over a decoded body: the elements of a list, the keys of
    a dictionary, the characters of a string; anything else is not
    iterable. Every key of a dictionary is a string, and [to_todos] fails
    alike on each, so the order in which the keys come does not show. *)
Definition iterate (d : value) : result (list value) :=
  match d with
  | VList l => inr l
  | VDict m => inr ((fun kv => VStr kv.1) <$> map_to_list m)
  | VStr s => inr ((fun c => VStr (String c EmptyString)) <$> list_ascii_of_string s)
  | _ => inl (TypeError "object is not iterable")
  end.

(** [[Todo.from_d(x) for x in xs]] *)
Fixpoint from_d_each (xs : list value) : result (list Todo.t) :=
  match xs with
  | [] => inr []
  | x :: xs' =>
      rbind (Todo.from_d x) (fun t =>
      rbind (from_d_each xs') (fun ts =>
      inr (t :: ts)))
  end.

(** [to_todos] returns a Python list of [Todo]; it is not an object the
    pipeline passes on, so it is typed on its own. *)
Definition to_todos (response : pyobj) : Out (list Todo.t) :=
  obind (as_response "json" response) (fun r =>
  obind (lift_result (Response.json r)) (fun d =>
  lift_result (rbind (iterate d) from_d_each))).

Module Loggers.
Definition DEFAULT : string -> stage := simple_logger.
Definition NULL : stage := null_logger.
End Loggers.

Module ErrorHandlers.
Definition DEFAULT : stage := default_error_handler.
Definition NULL : stage := null_tranform.
End ErrorHandlers.

(** The identifier handed to [get_todo_by_id]: the notebook passes an
    [int] or a [str]; ['todos/{}'.format(ix)] writes it in decimal or as it
    is. *)
Inductive todo_ix :=
| IxInt (n : Z)
| IxStr (s : string).

Definition todos_segment (ix : todo_ix) : string :=
  "todos/" +:+ match ix with
               | IxInt n => pretty n
               | IxStr s => s
               end.

(** The first [TodoClient]: it keeps only [rget]. [DEFAULT_HEADER] is the
    address of the module-level dictionary; [headers], [logger] and
    [error_handler] are the arguments as given ([None] included). *)
Module TodoClient1.
Section Client.
Variable transport : list Request -> Request -> result Response.t.
Variable DEFAULT_HEADER : loc.

Record t := mk {
  rget : string -> kwargs -> M pyobj
}.

Definition init (base_url : string) (headers : option loc)
    (logger error_handler : option stage) : t :=
  let h := match headers with None => DEFAULT_HEADER | Some hd => hd end in
  mk (to_get transport base_url (Some h) error_handler logger).

Definition get_todo_by_id (self : t) (ix : todo_ix) : M pyobj :=
  rget self (todos_segment ix) (mk_kwargs None (Some to_todo) ∅).
End Client.
End TodoClient1.

(** The final [TodoClient]. [now] is the clock reading of the
    [simple_logger] that [get_todo_by_id] installs. *)
Module TodoClient.
Section Client.
Variable transport : list Request -> Request -> result Response.t.
Variable DEFAULT_HEADER : loc.

Record t := mk {
  base_url : string;
  headers : loc;
  logger : option stage;
  error_handler : option stage;
  rget : string -> kwargs -> M pyobj
}.

Definition init (base_url : string) (headers : option loc)
    (logger error_handler : option stage) : t :=
  let h := match headers with None => DEFAULT_HEADER | Some hd => hd end in
  mk base_url h logger error_handler
     (to_get transport base_url (Some h) error_handler logger).

Definition get_todo_by_id (now : string) (self : t) (ix : todo_ix) : M pyobj :=
  let rg := to_get transport (base_url self) (Some (headers self)) None
              (Some (simple_logger now)) in
  rg (todos_segment ix) (mk_kwargs None (Some to_todo_or_none) ∅).
End Client.
End TodoClient.

(** ** Vocabulary and scenarios for the further properties *)

(** Whenever the stage returns, it returns the object it was given. *)
Definition hands_back (s : stage) : Prop :=
  forall x o y, s x = (o, inr y) -> y = x.

(** The fields of a [Todo] are instances of their declared classes. *)
Definition well_typed (t : Todo.t) : bool :=
  isinstance (Todo.id t) int && isinstance (Todo.user_id t) int
  && isinstance (Todo.title t) str && isinstance (Todo.completed t) bool_.

(** The first of the keys read by [Todo.from_d] that [m] lacks. *)
Definition first_missing (m : gmap string value) : option string :=
  head (filter (fun k => m !! k = None) ["id"; "userId"; "title"; "completed"]).

Module Scenario.
(** No network: every request fails in the transport. *)
Definition offline (history : list Request) (request : Request) : result Response.t :=
  inl (RequestException "Max retries exceeded").

(** A server that answers every request with a 500 whose body is a
    complete todo. *)
Definition failing_with_todo (history : list Request) (request : Request)
  : result Response.t :=
  inr (Response.mk (req_url request) 500 false "0.01" [] (Some Demo.first_todo)).

(** The answer to [todos]: an array, here of two todos. *)
Definition todos_page (url : string) : Response.t :=
  Response.mk url 200 true "0.08" [] (Some (VList [Demo.first_todo; Demo.first_todo])).

(** A second default dictionary, beside [DEFAULT_HEADER]. *)
Definition w2 : world :=
  mk_world {[ 0 := Demo.DEFAULT_HEADER; 1 := {[ "accept" := "text/plain" ]} ]} [] [].
End Scenario.

(** ** The command-line notebook *)

Module CLI.

(** An exception as the runners tell them apart: an instance of a class
    derived from [Exception], known by the name of its class, or one of
    the two that [except Exception] lets through. *)
Inductive pyexc :=
| Raised (class_name : string) (message : string)
| SystemExit (code : Z)
| KeyboardInterrupt.

Definition class_name_of (ex : pyexc) : string :=
  match ex with
  | Raised c _ => c
  | SystemExit _ => "SystemExit"
  | KeyboardInterrupt => "KeyboardInterrupt"
  end.

(** The attributes [argparse] may have put on the parsed arguments; one
    that was not put there is [None] here and raises [AttributeError]
    when read. [log_file], when there, is a string or Python's [None]. *)
Record Namespace := mk_Namespace {
  name : option string;
  num_times : option Z;
  level : option string;
  log_file : option (option string)
}.

(** What the tool writes: a printed line, or a record handed to the
    module's [logger]. *)
Inductive event :=
| Printed (line : string)
| Debug (pargs : Namespace)
| Error (ex : pyexc).

Definition Cmd (A : Type) : Type := list event * (pyexc + A).

Definition cret {A} (a : A) : Cmd A := ([], inr a).
Definition craise {A} (ex : pyexc) : Cmd A := ([], inl ex).
Definition cprint (line : string) : Cmd unit := ([Printed line], inr tt).
Definition clog (ev : event) : Cmd unit := ([ev], inr tt).

Definition cbind {A B} (c : Cmd A) (k : A -> Cmd B) : Cmd B :=
  match c with
  | (o1, inl ex) => (o1, inl ex)
  | (o1, inr a) => let '(o2, r) := k a in (o1 ++ o2, r)
  end.

(** [pargs.<attr>] *)
Definition getattr {A} (attr : string) (v : option A) : Cmd A :=
  match v with
  | Some a => cret a
  | None => craise (Raised "AttributeError"
                      ("'Namespace' object has no attribute '" +:+ attr +:+ "'"))
  end.

(** The parsed arguments with their [func] attribute, set by
    [set_defaults(func=...)] on the subparser that matched; the functions
    of the notebook do not read [func] from the arguments they get. *)
Record Parsed := mk_Parsed {
  pargs : Namespace;
  func : option (Namespace -> Cmd value)
}.

(** [range(start, stop)] *)
Definition range (start stop : Z) : list Z :=
  (fun i => (start + Z.of_nat i)%Z) <$> seq 0 (Z.to_nat (stop - start)).

(** [for x in xs: body(x)] *)
Fixpoint for_each {A} (xs : list A) (body : A -> Cmd unit) : Cmd unit :=
  match xs with
  | [] => cret tt
  | x :: xs' => cbind (body x) (fun _ => for_each xs' body)
  end.

(** Iteration #1: the library functions and their wrappers. *)
Module Iteration1.
Definition lib_hello (name : string) : Cmd value :=
  cbind (cprint ("Hello, " +:+ name +:+ "!")) (fun _ => cret VNone).

Definition lib_goodbye (name : string) : Cmd value :=
  cbind (cprint ("Goodbye, " +:+ name +:+ "!")) (fun _ => cret VNone).

Definition run_hello (args : Namespace) : Cmd value :=
  cbind (getattr "name" (name args)) lib_hello.

Definition run_goodbye (args : Namespace) : Cmd value :=
  cbind (getattr "name" (name args)) lib_goodbye.
End Iteration1.

(** Iteration #2: [hello] takes [--num-times]. *)
Module Iteration2.
Definition lib_hello (name : string) (num_times : Z) : Cmd value :=
  cbind (for_each (range 0 num_times)
           (fun _ => cprint ("Hello, " +:+ name +:+ "!")))
        (fun _ => cret VNone).

Definition run_hello (args : Namespace) : Cmd value :=
  cbind (getattr "name" (name args)) (fun n =>
  cbind (getattr "num_times" (num_times args)) (fun k =>
  lib_hello n k)).
End Iteration2.

(** Iteration #3: the hooks. [runtime] is the text of the elapsed seconds,
    ["{:.2f}"] of the difference of two clock readings. *)
Definition null_setup_logger (level : string) (output_file : option string) : Cmd unit :=
  cret tt.

Definition setup_logger (level : string) (output_file : option string) : Cmd unit :=
  cprint ("mock setting up logger level=" +:+ level +:+ " file="
          +:+ match output_file with Some f => f | None => "None" end).

Definition null_run_epilogue (exit_code : Z) (started_at : string) : Cmd unit :=
  cret tt.

Definition run_epilogue (runtime : string) (exit_code : Z) (started_at : string)
  : Cmd unit :=
  cprint ("completed exit-code=" +:+ pretty exit_code +:+ " runtime:" +:+ runtime
          +:+ " sec").

(** Iteration #4: exceptions to exit codes. *)
Definition error_handler (ex : pyexc) (default_error_code : Z) : Z :=
  let d : gmap string Z :=
    {[ "ZeroDivisionError" := 7%Z; "IOError" := 3%Z; "ValueError" := 4%Z ]} in
  default default_error_code (d !! class_name_of ex).

Section Runners.

(** [get_parser().parse_args(argv)]: the work of [argparse], which prints
    and leaves through [SystemExit] on [--help], [--version] and errors. *)
Variable parse_args : list string -> Cmd Parsed.

(** The clock reading taken on entry, as the hooks get it. *)
Variable started_at : string.

(** The [runner] of the first cells and of iterations #1 and #2. *)
Definition runner_plain (argv : list string) : Cmd value :=
  cbind (parse_args argv) (fun p =>
  cbind (getattr "func" (func p)) (fun f =>
  f (pargs p))).

(** The body of [try: out = pargs.func(pargs); exit_code = 0], with what
    it leaves in [out] and [exit_code]. *)
Definition call_func (p : Parsed) : Cmd (value * Z) :=
  cbind (getattr "func" (func p)) (fun f =>
  cbind (f (pargs p)) (fun out =>
  cret (out, 0%Z))).

(** Iteration #3. [out] is bound only when the call returned. *)
Definition runner3 (argv : list string)
    (setup_logger : string -> option string -> Cmd unit)
    (run_epilogue : Z -> string -> Cmd unit) : Cmd value :=
  let exit_code := 1%Z in
  cbind (parse_args argv) (fun p =>
  cbind (getattr "level" (level (pargs p))) (fun lv =>
  cbind (getattr "log_file" (log_file (pargs p))) (fun lf =>
  cbind (setup_logger lv lf) (fun _ =>
  cbind (clog (Debug (pargs p))) (fun _ =>
  cbind (match call_func p with
         | (o, inr (out, code)) => (o, inr (Some out, code))
         | (o, inl (Raised c m)) =>
             cbind (o, inr tt) (fun _ =>
             cbind (clog (Error (Raised c m))) (fun _ =>
             cret (None, exit_code)))
         | (o, inl ex) => (o, inl ex)
         end) (fun '(out, exit_code) =>
  cbind (run_epilogue exit_code started_at) (fun _ =>
  match out with
  | Some v => cret v
  | None => craise (Raised "UnboundLocalError"
                      "local variable 'out' referenced before assignment")
  end))))))).

(** Iteration #4. *)
Definition runner (argv : list string)
    (setup_logger : string -> option string -> Cmd unit)
    (error_handler : pyexc -> Cmd Z)
    (run_epilogue : Z -> string -> Cmd unit) : Cmd Z :=
  cbind (parse_args argv) (fun p =>
  cbind (getattr "level" (level (pargs p))) (fun lv =>
  cbind (getattr "log_file" (log_file (pargs p))) (fun lf =>
  cbind (setup_logger lv lf) (fun _ =>
  cbind (clog (Debug (pargs p))) (fun _ =>
  cbind (match call_func p with
         | (o, inr (_, code)) => (o, inr code)
         | (o, inl (Raised c m)) =>
             cbind (o, inr tt) (fun _ => error_handler (Raised c m))
         | (o, inl ex) => (o, inl ex)
         end) (fun exit_code =>
  cbind (run_epilogue exit_code started_at) (fun _ =>
  cret exit_code))))))).

End Runners.

(** The [error_handler] a [runner] gets by default, called on the
    exception alone. *)
Definition error_handler_hook (ex : pyexc) : Cmd Z :=
  cret (error_handler ex 1).

End CLI.

(** A tool for the replays: [hello] and [goodbye] as in the notebook, and
    a command that divides by zero. *)
Module CLIScenario.
Definition divide (args : CLI.Namespace) : CLI.Cmd value :=
  CLI.craise (CLI.Raised "ZeroDivisionError" "division by zero").

Definition parse_args (argv : list string) : CLI.Cmd CLI.Parsed :=
  match argv with
  | [command; n] =>
      let ns := CLI.mk_Namespace (Some n) (Some 2%Z) (Some "INFO") (Some None) in
      if String.eqb command "hello"
      then CLI.cret (CLI.mk_Parsed ns (Some CLI.Iteration2.run_hello))
      else if String.eqb command "divide"
      then CLI.cret (CLI.mk_Parsed ns (Some divide))
      else ([CLI.Printed "usage: tool [-h] [--version] {hello,divide} ..."],
            inl (CLI.SystemExit 2))
  | _ => ([CLI.Printed "usage: tool [-h] [--version] {hello,divide} ..."],
          inl (CLI.SystemExit 2))
  end.

Definition started_at : string := "2019-02-21 16:59:11.100236".
End CLIScenario.

(** ** The closures of the last notebook *)

Module Closures.

(** ["Loading from cache {}={}"] *)
Inductive line :=
| LoadingFromCache (key : Z * Z) (value : Z).

Section Compute.

(** The function [compute] wraps, [op.add] by default: here any function
    of two integers that depends on its arguments only and returns an
    integer or raises. *)
Context {E : Type}.
Variable f : Z -> Z -> E + Z.

(** Example #1. [cache] is the dictionary the closure holds. *)
Definition f2 (m n : Z) (cache : gmap (Z * Z) Z)
  : list line * (E + Z) * gmap (Z * Z) Z :=
  let key := (m, n) in
  match cache !! key with
  | Some value => ([LoadingFromCache key value], inr value, cache)
  | None =>
      match f m n with
      | inl e => ([], inl e, cache)
      | inr v => ([], inr v, <[key := v]> cache)
      end
  end.

(** Example #2 with [nonlocal]: [num_times_called] is the closed-over
    counter, bumped before [f] is called. *)
Definition f2_counting (m n : Z) (num_times_called : Z) : (E + Z) * Z :=
  let num_times_called := (num_times_called + 1)%Z in
  (f m n, num_times_called).

Definition get_num_times (num_times_called : Z) : Z := num_times_called.

End Compute.

(** [two_seven(n)]: [total] is the list the closure holds, [[0]] at first;
    [None] stands for the [IndexError] of [total[0]] on an empty list. *)
Definition two_seven_f (n : Z) (m : Z) (total : list Z) : option Z * list Z :=
  match total !! 0%nat with
  | Some t => (Some (n + m)%Z, <[0%nat := (t + 1)%Z]> total)
  | None => (None, total)
  end.

Definition two_seven_get_total (total : list Z) : option Z :=
  total !! 0%nat.

End Closures.

(** [cache] holds exactly what [f] returned on the keys of [seen]. *)
Definition cache_of {E} (f : Z -> Z -> E + Z) (seen : list (Z * Z))
    (cache : gmap (Z * Z) Z) : Prop :=
  forall k v, cache !! k = Some v <-> k ∈ seen /\ f k.1 k.2 = inr v.

(** What the [i]-th call of [f2] prints, given the keys called before. *)
Definition expected_line {E} (f : Z -> Z -> E + Z) (before : list (Z * Z))
    (k : Z * Z) : list Closures.line :=
  match f k.1 k.2 with
  | inr v => if decide (k ∈ before) then [Closures.LoadingFromCache k v] else []
  | inl _ => []
  end.

(** Calls of a closure one after the other, on the state it holds. *)
Fixpoint calls_f2 {E} (f : Z -> Z -> E + Z) (keys : list (Z * Z))
    (cache : gmap (Z * Z) Z)
  : list (list Closures.line * (E + Z)) * gmap (Z * Z) Z :=
  match keys with
  | [] => ([], cache)
  | k :: keys' =>
      let '(o, r, cache1) := Closures.f2 f k.1 k.2 cache in
      let '(rs, cache2) := calls_f2 f keys' cache1 in
      ((o, r) :: rs, cache2)
  end.

Fixpoint calls_counting {E} (f : Z -> Z -> E + Z) (keys : list (Z * Z))
    (num_times_called : Z) : list (E + Z) * Z :=
  match keys with
  | [] => ([], num_times_called)
  | k :: keys' =>
      let '(r, n1) := Closures.f2_counting f k.1 k.2 num_times_called in
      let '(rs, n2) := calls_counting f keys' n1 in
      (r :: rs, n2)
  end.

Fixpoint calls_two_seven (n : Z) (ms : list Z) (total : list Z)
  : list (option Z) * list Z :=
  match ms with
  | [] => ([], total)
  | m :: ms' =>
      let '(r, total1) := Closures.two_seven_f n m total in
      let '(rs, total2) := calls_two_seven n ms' total1 in
      (r :: rs, total2)
  end.

(** ** The [compose] of the README *)

Module Readme.
(** [functools.reduce(compose_two, reversed(funcs))], on functions that
    only compute. *)
Definition compose {A} (funcs : list (A -> A)) : result (A -> A) :=
  reduce (fun f g => fun x => f (g x)) (rev funcs).

Definition adder (a b : Z) : Z := (a + b)%Z.

Definition multiply (n : Z) : Z -> Z := fun m => (m * n)%Z.

(** [functools.partial(adder, 1)] and [functools.partial(adder, 2)] *)
Definition add_one : Z -> Z := adder 1.
Definition add_two : Z -> Z := adder 2.

Definition f : result (Z -> Z) := compose [add_one; multiply 3; add_two].
End Readme.

(** * Properties *)

(** ** The writer of console lines *)

Lemma obind_oret_l {A B} (a : A) (k : A -> Out B) : obind (oret a) k = k a.
Proof. unfold obind, oret. destruct (k a) as [o r]. reflexivity. Qed.

Lemma obind_oret_r {A} (c : Out A) : obind c oret = c.
Proof.
  destruct c as [o [e | a]]; unfold obind, oret; [reflexivity |].
  by rewrite app_nil_r.
Qed.

Lemma obind_assoc {A B C} (c : Out A) (k : A -> Out B) (k' : B -> Out C) :
  obind (obind c k) k' = obind c (fun a => obind (k a) k').
Proof.
  destruct c as [o1 [e | a]]; simpl; [reflexivity |].
  destruct (k a) as [o2 [e | b]]; simpl; [reflexivity |].
  destruct (k' b) as [o3 r]. by rewrite app_assoc.
Qed.

(** Running a sequence of stages is running them one after the other. *)
Lemma lift_out_obind {A B} (c : Out A) (k : A -> Out B) (w : world) :
  lift_out (obind c k) w = (let* a := lift_out c in lift_out (k a)) w.
Proof.
  destruct c as [o1 [e | a]]; unfold bind, lift_out; simpl; [reflexivity |].
  destruct (k a) as [o2 r]; simpl. by rewrite app_assoc.
Qed.

(** ** Strings *)

Lemma get_after_prefix (b s : string) (n : nat) :
  String.get (String.length b + n) (b +:+ s) = String.get n s.
Proof. induction b as [| c b IH]; [reflexivity | exact IH]. Qed.

Lemma get_in_prefix (b s : string) (n : nat) :
  n < String.length b -> String.get n (b +:+ s) = String.get n b.
Proof.
  revert n. induction b as [| c b IH]; intros n Hn; cbn in Hn; [lia |].
  destruct n as [| n]; [reflexivity |]. cbn. apply IH. lia.
Qed.

Lemma get_join_separator (base_url segment : string) :
  String.get (String.length base_url) (base_url +:+ "/" +:+ segment) = Some "/"%char.
Proof.
  rewrite <- (Nat.add_0_r (String.length base_url)).
  by rewrite get_after_prefix.
Qed.

Lemma doubled_at_join_spec (base_url segment : string) :
  separator_doubled_at_join base_url (base_url +:+ "/" +:+ segment)
  = startswith_separator segment || endswith_separator base_url.
Proof.
  unfold separator_doubled_at_join, startswith_separator, endswith_separator.
  cbv zeta. f_equal.
  - replace (S (String.length base_url)) with (String.length base_url + 1) by lia.
    by rewrite get_after_prefix.
  - destruct (String.length base_url) as [| j] eqn:Hlen; [reflexivity |].
    rewrite get_in_prefix; [reflexivity | lia].
Qed.

(** ** The state monad of calls *)

Lemma bind_ext {A B} (c : M A) (k k' : A -> M B) (w : world) :
  (forall a w', c w = (inr a, w') -> k a w' = k' a w') ->
  bind c k w = bind c k' w.
Proof.
  intros Hk. unfold bind. destruct (c w) as [[e | a] w']; [reflexivity |].
  by apply Hk.
Qed.

(** ** Composition *)

Lemma compose_three (f g h : stage) :
  compose [f; g; h] = inr (fun x => obind (h x) (fun y => obind (g y) f)).
Proof. reflexivity. Qed.

Lemma compose_singleton (f : stage) : compose [f] = inr f.
Proof. reflexivity. Qed.

Lemma compose_empty : compose [] = inl (TypeError "reduce() of empty sequence with no initial value").
Proof. reflexivity. Qed.

(** C9. Composing the identity transform, the identity error handler and
    the identity logger yields a function that hands back the very object
    it is given, prints nothing and raises nothing; the same holds with
    [null_tranform] standing in for the logger, as [to_get] does when no
    logger is configured. *)
Theorem compose_identities_is_identity :
  (exists c, compose [null_tranform; null_tranform; null_logger] = inr c
             /\ forall response, c response = oret response)
  /\ (exists c, compose [null_tranform; null_tranform; null_tranform] = inr c
                /\ forall response, c response = oret response).
Proof.
  split; eexists; (split; [apply compose_three |]); intros response; reflexivity.
Qed.

(** ** What a call of the configured function does *)

Section Pipeline.

Variable transport : list Request -> Request -> result Response.t.

Lemma to_get_steps base_url headers error_handler logger segment kw w :
  to_get transport base_url headers error_handler logger segment kw w =
  (let* _ := dict_update headers (default ∅ (kw_headers kw)) in
   let* raw := requests_get transport (base_url +:+ "/" +:+ segment) headers
                 (pop_transform kw) in
   lift_out (chain error_handler logger kw raw)) w.
Proof.
  unfold to_get, chain.
  destruct error_handler, logger; reflexivity.
Qed.

Lemma requests_get_pop url headers kw w :
  requests_get transport url headers (pop_transform kw) w =
  let request := mk_Request url (deref headers w) (kw_rest kw) in
  (rbind (transport (sent w) request) (fun r => inr (OResponse r)),
   mk_world (heap w) (sent w ++ [request]) (stdout w)).
Proof. reflexivity. Qed.

(** A call on a pipeline whose default headers are the dictionary at [l],
    currently holding [d]. *)
Lemma to_get_Some base_url l error_handler logger segment kw w d :
  heap w !! l = Some d ->
  let h := default ∅ (kw_headers kw) in
  let request := dispatched base_url segment kw d in
  let hp := <[l := h ∪ d]> (heap w) in
  to_get transport base_url (Some l) error_handler logger segment kw w =
  match transport (sent w) request with
  | inl e => (inl e, mk_world hp (sent w ++ [request]) (stdout w))
  | inr r =>
      let out := chain error_handler logger kw (OResponse r) in
      (out.2, mk_world hp (sent w ++ [request]) (stdout w ++ out.1))
  end.
Proof.
  intros Hd h request hp. rewrite to_get_steps.
  unfold bind, dict_update. rewrite requests_get_pop.
  cbn [heap sent stdout deref fmap option_fmap option_map].
  assert (Halter : alter (union h) l (heap w) = hp).
  { unfold hp. apply map_eq. intros i. rewrite lookup_alter, lookup_insert.
    destruct (decide (l = i)) as [<- | ?]; [by rewrite Hd | done]. }
  fold h. rewrite Halter.
  replace (hp !!! l) with (h ∪ d) by (unfold hp; by rewrite lookup_total_insert_eq).
  change (mk_Request _ (Some (h ∪ d)) (kw_rest kw)) with request.
  destruct (transport (sent w) request) as [e | r]; reflexivity.
Qed.

(** C1. In every call, the three post-processing stages are applied to the
    response of [requests.get] from right to left: the logger first, the
    error handler on what the logger returned, the caller's transform on
    what the error handler returned. A logger that hands back the response
    it is given therefore lets the error handler see the very response the
    logger saw, before the transform replaces it. *)
Theorem fetch_applies_logger_then_classifier_then_transform
    base_url headers error_handler logger segment kw w :
  let logger_func := default null_tranform logger in
  let err_handler := default null_tranform error_handler in
  let transform_func := default null_tranform (kw_transform kw) in
  let url := base_url +:+ "/" +:+ segment in
  to_get transport base_url headers error_handler logger segment kw w =
    (let* _ := dict_update headers (default ∅ (kw_headers kw)) in
     let* raw := requests_get transport url headers (pop_transform kw) in
     let* logged := lift_out (logger_func raw) in
     let* checked := lift_out (err_handler logged) in
     lift_out (transform_func checked)) w
  /\ (returns_response logger_func ->
      to_get transport base_url headers error_handler logger segment kw w =
        (let* _ := dict_update headers (default ∅ (kw_headers kw)) in
         let* raw := requests_get transport url headers (pop_transform kw) in
         let* _ := lift_out (logger_func raw) in
         let* checked := lift_out (err_handler raw) in
         lift_out (transform_func checked)) w).
Proof.
  intros logger_func err_handler transform_func url.
  assert (Hsteps :
    to_get transport base_url headers error_handler logger segment kw w =
    (let* _ := dict_update headers (default ∅ (kw_headers kw)) in
     let* raw := requests_get transport url headers (pop_transform kw) in
     let* logged := lift_out (logger_func raw) in
     let* checked := lift_out (err_handler logged) in
     lift_out (transform_func checked)) w).
  { rewrite to_get_steps.
    apply bind_ext; intros _ w1 _. apply bind_ext; intros raw w2 _.
    unfold chain. rewrite lift_out_obind.
    apply bind_ext; intros logged w3 _. apply lift_out_obind. }
  split; [exact Hsteps |].
  intros Hlogger. rewrite Hsteps.
  apply bind_ext; intros _ w1 _. apply bind_ext; intros raw w2 Hraw.
  rewrite requests_get_pop in Hraw. cbv zeta in Hraw.
  destruct (transport _ _) as [e | r]; [discriminate |].
  injection Hraw as <- _.
  unfold bind, lift_out. by rewrite Hlogger.
Qed.

(** C10. On a pipeline created without default headers, every call raises
    [AttributeError] at [headers.update(h)], whatever the segment and the
    keyword arguments; nothing is sent and nothing is printed. The
    revision of iteration #1 behaves the same. *)
Theorem fetch_without_default_headers_raises
    base_url error_handler logger segment kw w :
  to_get transport base_url None error_handler logger segment kw w
    = (inl (AttributeError "update"), w)
  /\ to_get_iter1 transport base_url None segment kw w
    = (inl (AttributeError "update"), w).
Proof. split; [rewrite to_get_steps |]; reflexivity. Qed.

(** C2. With [default_error_handler] configured, and a logger that hands
    the response back, a call whose request is answered by the response
    [r] raises the failure built from [r.url], [r.status_code] and the
    first 25 bytes of [r.content] when [r.ok] is false, whatever the
    transform; when [r.ok] is true the handler returns [r] unchanged and
    the outcome is the transform's. Without a transform, the call raises
    that failure if and only if [r.ok] is false. The URL carried is the
    one the response reports: the request URL whenever the HTTP library
    reports the URL it was asked for. *)
Theorem fetch_raises_classified_failure_iff_not_ok
    base_url l logger segment kw w d r :
  heap w !! l = Some d ->
  returns_response (default null_tranform logger) ->
  transport (sent w) (dispatched base_url segment kw d) = inr r ->
  let outcome :=
    (to_get transport base_url (Some l) (Some default_error_handler) logger
       segment kw w).1 in
  let excerpt := take 25 (Response.content r) in
  let failure := Exception (Response.url r) (Response.status_code r) excerpt in
  (Response.ok r = false -> outcome = inl failure)
  /\ (Response.ok r = true ->
      outcome = (default null_tranform (kw_transform kw) (OResponse r)).2)
  /\ (kw_transform kw = None ->
      (outcome = inl failure <-> Response.ok r = false)
      /\ (outcome = inr (OResponse r) <-> Response.ok r = true))
  /\ default_error_handler (OResponse r)
      = (if Response.ok r then oret (OResponse r) else oraise failure)
  /\ length excerpt <= 25
  /\ (Response.url r = base_url +:+ "/" +:+ segment ->
      Response.ok r = false ->
      outcome = inl (Exception (base_url +:+ "/" +:+ segment)
                       (Response.status_code r) excerpt)).
Proof.
  intros Hd Hlogger Hr outcome excerpt failure.
  assert (Hout : outcome =
    if Response.ok r
    then (default null_tranform (kw_transform kw) (OResponse r)).2
    else inl failure).
  { unfold outcome. rewrite (to_get_Some _ _ _ _ _ _ _ _ Hd). cbv zeta.
    rewrite Hr. cbn [fst]. unfold chain.
    specialize (Hlogger r).
    destruct (default null_tranform logger (OResponse r)) as [o1 res].
    cbn in Hlogger. subst res. cbn [default]. unfold default_error_handler.
    cbn. destruct (Response.ok r); cbn; [| reflexivity].
    by destruct (default null_tranform (kw_transform kw) (OResponse r)). }
  split; [by intros Hok; rewrite Hout, Hok |].
  split; [by intros Hok; rewrite Hout, Hok |].
  split.
  { intros Hkw. rewrite Hout, Hkw. cbn.
    destruct (Response.ok r); split; split; congruence. }
  split; [unfold default_error_handler; cbn; by destruct (Response.ok r) |].
  split; [unfold excerpt; rewrite length_take; lia |].
  intros Hurl Hok. rewrite Hout, Hok. unfold failure. by rewrite Hurl.
Qed.

(** C3, amended. With default headers configured, a call with an empty
    segment, or on an empty base address, raises nothing at URL
    construction: the two halves are joined like any other strings (the
    URL is the base followed by the separator, or the separator followed
    by the segment), the request is handed to the HTTP library, and the
    outcome is the transport's failure or the chain applied to the
    response. *)
Theorem fetch_with_empty_half_is_dispatched
    base_url l error_handler logger segment kw w d :
  heap w !! l = Some d ->
  base_url = "" \/ segment = "" ->
  let request := dispatched base_url segment kw d in
  let out := to_get transport base_url (Some l) error_handler logger segment kw w in
  sent out.2 = sent w ++ [request]
  /\ (segment = "" -> req_url request = base_url +:+ "/")
  /\ (base_url = "" -> req_url request = "/" +:+ segment)
  /\ out.1 = match transport (sent w) request with
             | inl e => inl e
             | inr r => (chain error_handler logger kw (OResponse r)).2
             end.
Proof.
  intros Hd _ request out. unfold out.
  rewrite (to_get_Some _ _ _ _ _ _ _ _ Hd). cbv zeta. fold request.
  split; [by destruct (transport (sent w) request) |].
  split; [by intros -> |].
  split; [by intros -> |].
  by destruct (transport (sent w) request).
Qed.

(** C5. The headers sent with a call are the default dictionary, as it
    stands when the call is made, overlaid with the per-call headers: a
    key of the overlay carries the overlay's value, any other key carries
    the default's. *)
Theorem fetch_sends_defaults_overlaid
    base_url l error_handler logger segment kw w d :
  heap w !! l = Some d ->
  let overlay := default ∅ (kw_headers kw) in
  let out := to_get transport base_url (Some l) error_handler logger segment kw w in
  exists merged,
    sent out.2
      = sent w ++ [mk_Request (base_url +:+ "/" +:+ segment) (Some merged) (kw_rest kw)]
    /\ merged = overlay ∪ d
    /\ (forall k v, overlay !! k = Some v -> merged !! k = Some v)
    /\ (forall k, overlay !! k = None -> merged !! k = d !! k)
    /\ (kw_headers kw = None -> merged = d).
Proof.
  intros Hd overlay out. exists (overlay ∪ d). unfold out.
  rewrite (to_get_Some _ _ _ _ _ _ _ _ Hd). cbv zeta.
  split; [by destruct (transport _ _) |].
  split; [reflexivity |].
  split; [intros k v Hk; by apply lookup_union_Some_l |].
  split; [intros k Hk; by apply lookup_union_r |].
  intros Hkw. unfold overlay. rewrite Hkw. cbn. apply (left_id_L ∅ (∪)).
Qed.

(** *** The default headers are updated in place *)

Lemma to_get_heap base_url l error_handler logger segment kw w d :
  heap w !! l = Some d ->
  heap (to_get transport base_url (Some l) error_handler logger segment kw w).2
    = <[l := default ∅ (kw_headers kw) ∪ d]> (heap w).
Proof.
  intros Hd. rewrite (to_get_Some _ _ _ _ _ _ _ _ Hd). cbv zeta.
  by destruct (transport _ _).
Qed.

Lemma to_get_iter1_heap base_url l segment kw w d :
  heap w !! l = Some d ->
  heap (to_get_iter1 transport base_url (Some l) segment kw w).2
    = <[l := default ∅ (kw_headers kw) ∪ d]> (heap w).
Proof.
  intros Hd. unfold to_get_iter1, bind, dict_update, lift_out, requests_get.
  cbn [heap sent stdout fst snd print].
  assert (Halter : alter (union (default ∅ (kw_headers kw))) l (heap w)
                   = <[l := default ∅ (kw_headers kw) ∪ d]> (heap w)).
  { apply map_eq. intros i. rewrite lookup_alter, lookup_insert.
    destruct (decide (l = i)) as [<- | ?]; [by rewrite Hd | done]. }
  destruct (kw_transform kw); cbn [heap snd]; exact Halter.
Qed.

Lemma run_calls_heap base_url l error_handler logger calls w d :
  heap w !! l = Some d ->
  heap (run_calls (to_get transport base_url (Some l) error_handler logger) calls w) !! l
    = Some (accumulated calls d).
Proof.
  revert w d. induction calls as [| [segment kw] calls IH]; intros w d Hd; [exact Hd |].
  unfold run_calls, accumulated. cbn [fold_left fst snd].
  apply IH. rewrite (to_get_heap _ _ _ _ _ _ _ _ Hd). apply lookup_insert_eq.
Qed.

Lemma accumulated_is_Some calls d k :
  is_Some (d !! k) -> is_Some (accumulated calls d !! k).
Proof.
  revert d. induction calls as [| c calls IH]; intros d Hk; [exact Hk |].
  unfold accumulated. cbn [fold_left]. apply IH.
  rewrite lookup_union. destruct Hk as [v ->].
  by destruct (default ∅ (kw_headers c.2) !! k).
Qed.

Lemma accumulated_untouched calls d k :
  (forall c, c ∈ calls -> default ∅ (kw_headers c.2) !! k = None) ->
  accumulated calls d !! k = d !! k.
Proof.
  revert d. induction calls as [| c calls IH]; intros d Hk; [reflexivity |].
  unfold accumulated. cbn [fold_left].
  etrans; [apply IH; intros c' Hc'; apply Hk; by right |].
  apply lookup_union_r, Hk. by left.
Qed.

(** C6. A call that supplies a header overlay updates the dictionary the
    pipeline was created with, in place and whatever the call returns or
    raises: afterwards that dictionary holds the overlay laid over its
    former content. Every later call on the same pipeline therefore sends
    the overlay's keys, with the overlay's values unless a later overlay
    gives the key again. The revision of iteration #1 updates the
    dictionary in the same way. *)
Theorem overlay_persists_in_default_headers
    base_url l error_handler logger segment kw overlay w d later segment' kw' :
  heap w !! l = Some d ->
  kw_headers kw = Some overlay ->
  let f := to_get transport base_url (Some l) error_handler logger in
  let w1 := (f segment kw w).2 in
  let w2 := run_calls f later w1 in
  heap w1 !! l = Some (overlay ∪ d)
  /\ (exists merged,
        sent (f segment' kw' w2).2
          = sent w2 ++ [mk_Request (base_url +:+ "/" +:+ segment') (Some merged)
                          (kw_rest kw')]
        /\ (forall k, is_Some (overlay !! k) -> is_Some (merged !! k))
        /\ (forall k v, overlay !! k = Some v ->
               (forall c, c ∈ later ++ [(segment', kw')] ->
                          default ∅ (kw_headers c.2) !! k = None) ->
               merged !! k = Some v))
  /\ heap (to_get_iter1 transport base_url (Some l) segment kw w).2 !! l
      = Some (overlay ∪ d).
Proof.
  intros Hd Hkw f w1 w2.
  assert (Hw1 : heap w1 !! l = Some (overlay ∪ d)).
  { unfold w1, f. rewrite (to_get_heap _ _ _ _ _ _ _ _ Hd), Hkw.
    apply lookup_insert_eq. }
  assert (Hw2 : heap w2 !! l = Some (accumulated later (overlay ∪ d))).
  { unfold w2, f. by apply run_calls_heap. }
  split; [exact Hw1 |]. split.
  - exists (default ∅ (kw_headers kw') ∪ accumulated later (overlay ∪ d)).
    split.
    { unfold f. rewrite (to_get_Some _ _ _ _ _ _ _ _ Hw2). cbv zeta.
      by destruct (transport _ _). }
    split.
    + intros k Hk. rewrite lookup_union.
      assert (Hacc : is_Some (accumulated later (overlay ∪ d) !! k)).
      { apply accumulated_is_Some. rewrite lookup_union.
        destruct Hk as [v ->]. by destruct (d !! k). }
      destruct Hacc as [v ->]. by destruct (default ∅ (kw_headers kw') !! k).
    + intros k v Hk Hlater.
      rewrite lookup_union_r.
      2: { apply (Hlater (segment', kw')). apply elem_of_app. right. by left. }
      rewrite accumulated_untouched.
      2: { intros c Hc. apply Hlater. apply elem_of_app. by left. }
      by apply lookup_union_Some_l.
  - rewrite (to_get_iter1_heap _ _ _ _ _ _ Hd), Hkw. apply lookup_insert_eq.
Qed.

(** *** The URL of a call *)

Lemma to_get_sends base_url l error_handler logger segment kw w :
  exists hs,
    sent (to_get transport base_url (Some l) error_handler logger segment kw w).2
      = sent w ++ [mk_Request (base_url +:+ "/" +:+ segment) hs (kw_rest kw)].
Proof.
  rewrite to_get_steps. unfold bind, dict_update. rewrite requests_get_pop.
  cbv zeta. eexists.
  destruct (rbind (transport _ _) _) as [e | raw]; reflexivity.
Qed.

(** C4, amended. For every base address and every segment, the URL of the
    request is the base address, one separator, and the segment, the
    separator standing right after the base address. The halves are not
    trimmed: the separator is doubled at the join exactly when the base
    address ends with one or the segment starts with one. *)
Theorem fetch_url_is_base_separator_segment
    base_url l error_handler logger segment kw w :
  exists request,
    sent (to_get transport base_url (Some l) error_handler logger segment kw w).2
      = sent w ++ [request]
    /\ req_url request = base_url +:+ "/" +:+ segment
    /\ String.get (String.length base_url) (req_url request) = Some "/"%char
    /\ (separator_doubled_at_join base_url (req_url request) = false <->
        endswith_separator base_url = false
        /\ startswith_separator segment = false).
Proof.
  destruct (to_get_sends base_url l error_handler logger segment kw w) as [hs Hs].
  eexists. split; [exact Hs |]. cbn [req_url].
  split; [reflexivity |]. split; [apply get_join_separator |].
  rewrite doubled_at_join_spec, orb_false_iff. tauto.
Qed.

End Pipeline.

(** ** Decoding a body into a [Todo] *)

Lemma init_first_failure a b c e :
  Todo.init a b c e =
    if negb (isinstance a int) then inl (TypeError_field "id" a int)
    else if negb (isinstance b int) then inl (TypeError_field "user_id" b int)
    else if negb (isinstance c str) then inl (TypeError_field "title" c str)
    else if negb (isinstance e bool_) then inl (TypeError_field "completed" e bool_)
    else inr (Todo.mk a b c e).
Proof.
  unfold Todo.init, Todo.validate. cbn -[isinstance].
  destruct (isinstance a int); [| reflexivity].
  destruct (isinstance b int); [| reflexivity].
  destruct (isinstance c str); [| reflexivity].
  destruct (isinstance e bool_); reflexivity.
Qed.

Lemma from_d_all_present (m : gmap string value) a b c e :
  m !! "id" = Some a -> m !! "userId" = Some b ->
  m !! "title" = Some c -> m !! "completed" = Some e ->
  Todo.from_d (VDict m) = Todo.init a b c e.
Proof.
  intros Ha Hb Hc He. unfold Todo.from_d, Todo.subscript.
  by rewrite Ha, Hb, Hc, He.
Qed.

Lemma from_d_missing (m : gmap string value) (key : string) :
  key ∈ ["id"; "userId"; "title"; "completed"] ->
  m !! key = None ->
  exists missing, Todo.from_d (VDict m) = inl (KeyError missing) /\ m !! missing = None.
Proof.
  intros Hkey Hnone. unfold Todo.from_d, Todo.subscript.
  destruct (m !! "id") as [a |] eqn:Ha; [| by exists "id"].
  destruct (m !! "userId") as [b |] eqn:Hb; [| by exists "userId"].
  destruct (m !! "title") as [c |] eqn:Hc; [| by exists "title"].
  destruct (m !! "completed") as [e |] eqn:He; [| by exists "completed"].
  exfalso. set_unfold in Hkey.
  destruct Hkey as [-> | [-> | [-> | [-> | []]]]]; congruence.
Qed.

(** C7. Decoding a body that has the keys [id], [userId], [title] and
    [completed] builds the [Todo] whose [id], [user_id], [title] and
    [completed] are the values under those keys, provided each value is an
    instance of the class declared for its field. Otherwise construction
    raises [TypeError] for the first field, in declaration order, whose
    value is not an instance of its class, and no [Todo] is built. *)
Theorem from_d_renames_and_validates (m : gmap string value) a b c e :
  m !! "id" = Some a -> m !! "userId" = Some b ->
  m !! "title" = Some c -> m !! "completed" = Some e ->
  let well_typed :=
    isinstance a int && isinstance b int && isinstance c str && isinstance e bool_ in
  (well_typed = true ->
     Todo.from_d (VDict m) = inr (Todo.mk a b c e)
     /\ forall r, Response.json_body r = Some (VDict m) ->
                  to_todo (OResponse r) = oret (OTodo (Todo.mk a b c e)))
  /\ (well_typed = false ->
      exists name attr ty,
        Todo.init a b c e = inl (TypeError_field name attr ty)
        /\ Todo.from_d (VDict m) = inl (TypeError_field name attr ty)
        /\ isinstance attr ty = false)
  /\ Todo.init a b c e =
       (if negb (isinstance a int) then inl (TypeError_field "id" a int)
        else if negb (isinstance b int) then inl (TypeError_field "user_id" b int)
        else if negb (isinstance c str) then inl (TypeError_field "title" c str)
        else if negb (isinstance e bool_) then inl (TypeError_field "completed" e bool_)
        else inr (Todo.mk a b c e)).
Proof.
  intros Ha Hb Hc He well_typed.
  pose proof (from_d_all_present m a b c e Ha Hb Hc He) as Hfrom.
  pose proof (init_first_failure a b c e) as Hinit.
  split; [| split; [| exact Hinit]].
  - intros Hwt. unfold well_typed in Hwt.
    apply andb_true_iff in Hwt as [Hwt He'].
    apply andb_true_iff in Hwt as [Hwt Hc'].
    apply andb_true_iff in Hwt as [Ha' Hb'].
    rewrite Ha', Hb', Hc', He' in Hinit. cbn in Hinit.
    rewrite Hinit in Hfrom. split; [exact Hfrom |].
    intros r Hr. unfold to_todo, Response.json. cbn. by rewrite Hr, Hfrom.
  - intros Hwt. rewrite Hfrom, Hinit. unfold well_typed in Hwt.
    destruct (isinstance a int) eqn:Ha'; [| by exists "id", a, int].
    destruct (isinstance b int) eqn:Hb'; [| by exists "user_id", b, int].
    destruct (isinstance c str) eqn:Hc'; [| by exists "title", c, str].
    destruct (isinstance e bool_) eqn:He'; [discriminate |].
    by exists "completed", e, bool_.
Qed.

(** C8, amended. For a body missing one of the four keys, [to_todo]
    raises the [KeyError] of a missing key and [to_todo_or_none] returns
    [None] instead. In general [to_todo_or_none] returns [None] exactly
    when [to_todo] raises [KeyError] or [AttributeError]; any other
    failure of the decoding ([TypeError], [ValueError]) is raised by both,
    and a decoded [Todo] is returned by both. *)
Theorem lenient_decoder_swallows_KeyError_and_AttributeError
    (r : Response.t) (m : gmap string value) (key : string) :
  Response.json_body r = Some (VDict m) ->
  key ∈ ["id"; "userId"; "title"; "completed"] ->
  m !! key = None ->
  (exists missing,
      to_todo (OResponse r) = oraise (KeyError missing) /\ m !! missing = None)
  /\ to_todo_or_none (OResponse r) = oret None_
  /\ (forall response,
        to_todo_or_none response =
          match to_todo response with
          | (o, inl (KeyError _)) | (o, inl (AttributeError _)) => (o, inr None_)
          | other => other
          end).
Proof.
  intros Hr Hkey Hnone.
  destruct (from_d_missing m key Hkey Hnone) as (missing & Hfrom & Hmissing).
  assert (Hstrict : to_todo (OResponse r) = oraise (KeyError missing)).
  { unfold to_todo, Response.json. cbn. by rewrite Hr, Hfrom. }
  split; [by exists missing |].
  split; [unfold to_todo_or_none; by rewrite Hstrict |].
  intros response. unfold to_todo_or_none, try_except_KeyError_AttributeError.
  destruct (to_todo response) as [o [[] | v]]; cbn; by rewrite ?app_nil_r.
Qed.

(** ** The notebook's calls, replayed *)

Lemma simple_logger_returns_response now : returns_response (simple_logger now).
Proof. intros r. reflexivity. Qed.

Lemma w0_default_header : heap Demo.w0 !! 0 = Some Demo.DEFAULT_HEADER.
Proof. vm_compute. reflexivity. Qed.

(** [rget('todos/1', transform=to_todo)] with the error handler and the
    simple logger: the logger and the error handler both see the response
    of the server, the transform turns it into a [Todo]. *)
Lemma fetch_applies_logger_then_classifier_then_transform_witness :
  returns_response (default null_tranform (Some (simple_logger Demo.now)))
  /\ to_get Demo.server Demo.BASE_URL (Some 0) (Some default_error_handler)
       (Some (simple_logger Demo.now)) "todos/1" (Demo.with_transform to_todo) Demo.w0
     = (let* _ := dict_update (Some 0) ∅ in
        let* raw := requests_get Demo.server (Demo.BASE_URL +:+ "/todos/1") (Some 0)
                      Demo.no_kw in
        let* _ := lift_out (simple_logger Demo.now raw) in
        let* checked := lift_out (default_error_handler raw) in
        lift_out (to_todo checked)) Demo.w0.
Proof.
  split; [apply simple_logger_returns_response |].
  apply (fetch_applies_logger_then_classifier_then_transform Demo.server
           Demo.BASE_URL (Some 0) (Some default_error_handler)
           (Some (simple_logger Demo.now)) "todos/1" (Demo.with_transform to_todo)
           Demo.w0).
  apply simple_logger_returns_response.
Defined.

(** [rget('does-not-exist', transform=to_todo)]: the 404 is raised with
    the URL, the status and the body [{}]. *)
Lemma fetch_raises_classified_failure_iff_not_ok_witness :
  heap Demo.w0 !! 0 = Some Demo.DEFAULT_HEADER
  /\ returns_response (default null_tranform (Some (simple_logger Demo.now)))
  /\ Demo.server (sent Demo.w0)
       (dispatched Demo.BASE_URL "does-not-exist" (Demo.with_transform to_todo)
          Demo.DEFAULT_HEADER)
     = inr (Demo.not_found (Demo.BASE_URL +:+ "/does-not-exist"))
  /\ (to_get Demo.server Demo.BASE_URL (Some 0) (Some default_error_handler)
        (Some (simple_logger Demo.now)) "does-not-exist"
        (Demo.with_transform to_todo) Demo.w0).1
     = inl (Exception "https://jsonplaceholder.typicode.com/does-not-exist" 404
              [x7b; x7d]).
Proof.
  split; [apply w0_default_header |].
  split; [apply simple_logger_returns_response |].
  split; [vm_compute; reflexivity |].
  apply (fetch_raises_classified_failure_iff_not_ok Demo.server Demo.BASE_URL 0
           (Some (simple_logger Demo.now)) "does-not-exist"
           (Demo.with_transform to_todo) Demo.w0 Demo.DEFAULT_HEADER
           (Demo.not_found (Demo.BASE_URL +:+ "/does-not-exist"))).
  - apply w0_default_header.
  - apply simple_logger_returns_response.
  - vm_compute. reflexivity.
  - reflexivity.
  - reflexivity.
Defined.

(** C3, as stated, fails: a call with an empty segment is not rejected. On
    the notebook's pipeline it sends a request to the base address
    followed by the separator and returns the server's response. *)
Lemma empty_segment_is_not_rejected :
  ~ (forall transport base_url headers error_handler logger segment kw w,
        base_url = "" \/ segment = "" ->
        exists e w',
          to_get transport base_url headers error_handler logger segment kw w
            = (inl e, w')
          /\ sent w' = sent w).
Proof.
  intros Hclaim.
  destruct (Hclaim Demo.server Demo.BASE_URL (Some 0) None None "" Demo.no_kw Demo.w0)
    as (e & w' & Hcall & _); [by right |].
  vm_compute in Hcall. discriminate Hcall.
Qed.

Lemma fetch_with_empty_half_is_dispatched_witness :
  heap Demo.w0 !! 0 = Some Demo.DEFAULT_HEADER
  /\ (Demo.BASE_URL = "" \/ "" = "")
  /\ sent (to_get Demo.server Demo.BASE_URL (Some 0) None None "" Demo.no_kw Demo.w0).2
     = [mk_Request "https://jsonplaceholder.typicode.com/" (Some Demo.DEFAULT_HEADER) ∅].
Proof.
  split; [apply w0_default_header |]. split; [by right |].
  destruct (fetch_with_empty_half_is_dispatched Demo.server Demo.BASE_URL 0 None None
              "" Demo.no_kw Demo.w0 Demo.DEFAULT_HEADER w0_default_header
              (or_intror eq_refl)) as (Hsent & _).
  rewrite Hsent. vm_compute. reflexivity.
Defined.

(** C4, as stated, fails: with the segment [/todos/1], which the notebook
    names as a segment of interest, the URL has two separators at the
    join. *)
Lemma leading_separator_is_doubled :
  ~ (forall base_url segment,
        base_url <> "" -> segment <> "" ->
        separator_doubled_at_join base_url (String.concat "/" [base_url; segment])
          = false).
Proof.
  intros Hclaim.
  assert (Hjoin := Hclaim Demo.BASE_URL "/todos/1" ltac:(discriminate) ltac:(discriminate)).
  vm_compute in Hjoin. discriminate Hjoin.
Qed.

(** A call overriding the default header and adding one. *)
Lemma fetch_sends_defaults_overlaid_witness :
  heap Demo.w0 !! 0 = Some Demo.DEFAULT_HEADER
  /\ exists merged,
       sent (to_get Demo.server Demo.BASE_URL (Some 0) None None "todos/1"
               (Demo.with_headers {[ "accept" := "application/json" ]}) Demo.w0).2
         = [mk_Request (Demo.BASE_URL +:+ "/todos/1") (Some merged) ∅]
       /\ merged !! "accept" = Some "application/json"
       /\ merged !! "x-my-header" = Some "12345".
Proof.
  split; [apply w0_default_header |].
  destruct (fetch_sends_defaults_overlaid Demo.server Demo.BASE_URL 0 None None
              "todos/1" (Demo.with_headers {[ "accept" := "application/json" ]})
              Demo.w0 Demo.DEFAULT_HEADER w0_default_header)
    as (merged & Hsent & _ & Hover & Hkeep & _).
  exists merged. split; [exact Hsent |].
  split; [apply Hover | rewrite Hkeep]; vm_compute; reflexivity.
Defined.

(** A token given to one call is still sent two calls later. *)
Lemma overlay_persists_in_default_headers_witness :
  heap Demo.w0 !! 0 = Some Demo.DEFAULT_HEADER
  /\ kw_headers (Demo.with_headers {[ "token" := "t1" ]}) = Some {[ "token" := "t1" ]}
  /\ exists merged,
       last (sent (to_get Demo.server Demo.BASE_URL (Some 0) None None "todos/2"
                     Demo.no_kw
                     (run_calls (to_get Demo.server Demo.BASE_URL (Some 0) None None)
                        [("todos", Demo.no_kw)]
                        (to_get Demo.server Demo.BASE_URL (Some 0) None None "todos/1"
                           (Demo.with_headers {[ "token" := "t1" ]}) Demo.w0).2)).2)
         = Some (mk_Request (Demo.BASE_URL +:+ "/todos/2") (Some merged) ∅)
       /\ merged !! "token" = Some "t1".
Proof.
  split; [apply w0_default_header |]. split; [reflexivity |].
  destruct (overlay_persists_in_default_headers Demo.server Demo.BASE_URL 0 None None
              "todos/1" (Demo.with_headers {[ "token" := "t1" ]}) {[ "token" := "t1" ]}
              Demo.w0 Demo.DEFAULT_HEADER [("todos", Demo.no_kw)] "todos/2" Demo.no_kw
              w0_default_header eq_refl)
    as (_ & (merged & Hsent & _ & Hval) & _).
  exists merged. split; [rewrite Hsent; apply last_snoc |].
  apply Hval; [vm_compute; reflexivity |].
  intros c Hc. set_unfold in Hc. destruct Hc as [-> | [-> | []]]; vm_compute; reflexivity.
Defined.

(** The first todo of the service. *)
Lemma from_d_renames_and_validates_witness :
  Demo.first_todo_d !! "id" = Some (VInt 1)
  /\ Demo.first_todo_d !! "userId" = Some (VInt 1)
  /\ Demo.first_todo_d !! "title" = Some (VStr "delectus aut autem")
  /\ Demo.first_todo_d !! "completed" = Some (VBool false)
  /\ Todo.from_d Demo.first_todo
     = inr (Todo.mk (VInt 1) (VInt 1) (VStr "delectus aut autem") (VBool false)).
Proof.
  assert (H1 : Demo.first_todo_d !! "id" = Some (VInt 1)) by (vm_compute; reflexivity).
  assert (H2 : Demo.first_todo_d !! "userId" = Some (VInt 1)) by (vm_compute; reflexivity).
  assert (H3 : Demo.first_todo_d !! "title" = Some (VStr "delectus aut autem"))
    by (vm_compute; reflexivity).
  assert (H4 : Demo.first_todo_d !! "completed" = Some (VBool false))
    by (vm_compute; reflexivity).
  repeat (split; [assumption |]).
  destruct (from_d_renames_and_validates Demo.first_todo_d _ _ _ _ H1 H2 H3 H4)
    as (Hdecoded & _).
  apply Hdecoded. reflexivity.
Defined.

(** C8, as stated, fails in its last clause: a body whose [id] is a string
    makes the decoding fail with [TypeError], and [to_todo_or_none] raises
    it instead of returning [None]. *)
Lemma lenient_decoder_raises_TypeError :
  ~ (forall response e,
        (to_todo response).2 = inl e ->
        (to_todo_or_none response).2 = inr None_).
Proof.
  intros Hclaim.
  specialize (Hclaim (OResponse (Demo.mistyped (Demo.BASE_URL +:+ "/todos/1")))
                (TypeError_field "id" (VStr "1") int)).
  vm_compute in Hclaim. specialize (Hclaim eq_refl). discriminate Hclaim.
Qed.

(** [get_todo_by_id("DOES-NOT-EXIST")]: the body [{}] of the 404 has no
    [id]. *)
Lemma lenient_decoder_swallows_KeyError_and_AttributeError_witness :
  Response.json_body (Demo.not_found (Demo.BASE_URL +:+ "/todos/DOES-NOT-EXIST"))
    = Some (VDict ∅)
  /\ "id" ∈ ["id"; "userId"; "title"; "completed"]
  /\ (∅ : gmap string value) !! "id" = None
  /\ to_todo_or_none (OResponse (Demo.not_found (Demo.BASE_URL +:+ "/todos/DOES-NOT-EXIST")))
     = oret None_.
Proof.
  assert (Hkey : "id" ∈ ["id"; "userId"; "title"; "completed"]) by (by left).
  split; [reflexivity |]. split; [exact Hkey |]. split; [reflexivity |].
  apply (lenient_decoder_swallows_KeyError_and_AttributeError
           (Demo.not_found (Demo.BASE_URL +:+ "/todos/DOES-NOT-EXIST")) ∅ "id"
           eq_refl Hkey eq_refl).
Defined.

(** * Further properties of the REST notebook *)

(** ** Composition of any number of functions *)

Lemma obind_ext {A B} (c : Out A) (k k' : A -> Out B) :
  (forall a, k a = k' a) -> obind c k = obind c k'.
Proof.
  intros Hk. destruct c as [o [e | a]]; [reflexivity |]. cbn. by rewrite Hk.
Qed.

Lemma bind_assoc {A B C} (c : M A) (k : A -> M B) (k' : B -> M C) (w : world) :
  bind (bind c k) k' w = bind c (fun a => bind (k a) k') w.
Proof. unfold bind. by destruct (c w) as [[e | a] w']. Qed.

Lemma fold_left_compose_two (fs : list stage) (F : stage) (x : pyobj) :
  fold_left compose_two fs F x
  = obind (fold_right (fun s acc => obind acc s) (oret x) fs) F.
Proof.
  revert F. induction fs as [| s fs IH]; intros F; cbn [fold_left fold_right].
  - by rewrite obind_oret_l.
  - rewrite IH. unfold compose_two at 1. by rewrite obind_assoc.
Qed.

Lemma fold_right_from_start (fs : list stage) (start : Out pyobj) :
  fold_right (fun s acc => obind acc s) start fs
  = obind start (fun y => fold_right (fun s acc => obind acc s) (oret y) fs).
Proof.
  induction fs as [| s fs IH]; cbn [fold_right].
  - by rewrite obind_oret_r.
  - by rewrite IH, obind_assoc.
Qed.

(** X1. [compose] of a non-empty argument list applies the functions from
    the last to the first, each to what the one before it returned, and
    stops at the first that raises; composing two argument lists laid end
    to end is composing their compositions. On no argument at all it
    raises [TypeError]. *)
Theorem compose_applies_last_to_first (f : stage) (fs : list stage) :
  (exists msg, compose [] = inl (TypeError msg))
  /\ exists c,
       compose (f :: fs) = inr c
       /\ (forall x, c x = fold_right (fun s acc => obind acc s) (oret x) (f :: fs))
       /\ (forall g gs,
             exists cg cfg,
               compose (g :: gs) = inr cg
               /\ compose ((f :: fs) ++ g :: gs) = inr cfg
               /\ forall x, cfg x = obind (cg x) c).
Proof.
  split; [by eexists |].
  exists (fold_left compose_two fs f). split; [reflexivity |]. split.
  - intros x. rewrite fold_left_compose_two. cbn [fold_right]. reflexivity.
  - intros g gs. exists (fold_left compose_two gs g), (fold_left compose_two (fs ++ g :: gs) f).
    split; [reflexivity |]. split; [reflexivity |].
    intros x. rewrite (fold_left_compose_two (fs ++ g :: gs)), fold_right_app.
    rewrite fold_right_from_start, obind_assoc.
    cbn [fold_right]. rewrite (fold_left_compose_two gs g x).
    apply obind_ext. intros y. by rewrite fold_left_compose_two.
Qed.

(** ** Error handling before decoding *)

(** X2. [handle_error_to_todo] looks at the success flag before it decodes:
    a response that is not [ok] raises the failure of
    [default_error_handler] whatever its body, even one that is not JSON,
    and a response that is [ok] is decoded as [to_todo] does. On two
    functions, the later [compose] builds the same function as the first
    one. *)
Theorem handle_error_to_todo_checks_before_decoding (r : Response.t) :
  Iteration2.handle_error_to_todo (OResponse r)
  = (if Response.ok r
     then to_todo (OResponse r)
     else oraise (Exception (Response.url r) (Response.status_code r)
                    (take 25 (Response.content r))))
  /\ forall f g : stage, compose [f; g] = inr (Iteration2.compose f g).
Proof.
  split; [| reflexivity].
  unfold Iteration2.handle_error_to_todo, Iteration2.compose, default_error_handler.
  cbn [as_response]. rewrite obind_oret_l.
  destruct (Response.ok r); cbn [negb]; [by rewrite obind_oret_l | reflexivity].
Qed.

Section MorePipeline.

Variable transport : list Request -> Request -> result Response.t.

(** X3. Configuring an error handler on the pipeline is the same as
    composing it into the transform of a pipeline that has none: the two
    calls return or raise the same, print the same, send the same request
    and leave the same store. *)
Theorem error_handler_wired_or_composed
    base_url headers logger segment h rest (t eh : stage) w :
  to_get transport base_url headers (Some eh) logger segment
    (mk_kwargs h (Some t) rest) w
  = to_get transport base_url headers None logger segment
      (mk_kwargs h (Some (Iteration2.compose t eh)) rest) w.
Proof.
  rewrite !to_get_steps. apply bind_ext; intros _ w1 _.
  apply bind_ext; intros raw w2 _. f_equal. unfold chain. cbn [default kw_transform].
  apply obind_ext. intros logged. unfold null_tranform at 1.
  by rewrite obind_oret_l.
Qed.

(** X4. The transform is the last thing a call does: calling with
    [transform=t] is calling without a transform and applying [t] to what
    comes back, a failure of the call itself leaving [t] unused. *)
Theorem transform_is_applied_to_the_plain_call
    base_url headers error_handler logger segment kw w :
  to_get transport base_url headers error_handler logger segment kw w
  = (let* r := to_get transport base_url headers error_handler logger segment
                 (pop_transform kw) in
     lift_out (default null_tranform (kw_transform kw) r)) w.
Proof.
  rewrite to_get_steps.
  etrans; [| symmetry; apply bind_ext; intros a w' _; reflexivity].
  unfold bind at 3.
  rewrite (to_get_steps _ _ _ _ _ _ (pop_transform kw)).
  change (default ∅ (kw_headers (pop_transform kw))) with (default ∅ (kw_headers kw)).
  change (pop_transform (pop_transform kw)) with (pop_transform kw).
  unfold bind at 1 3.
  destruct (dict_update headers _ w) as [[e | []] w1]; [reflexivity |].
  unfold bind at 1 2.
  destruct (requests_get transport _ headers _ w1) as [[e | raw] w2]; [reflexivity |].
  replace (chain error_handler logger kw raw)
    with (obind (chain error_handler logger (pop_transform kw) raw)
            (default null_tranform (kw_transform kw))).
  { rewrite lift_out_obind. reflexivity. }
  unfold chain. rewrite obind_assoc. apply obind_ext. intros logged.
  rewrite obind_assoc. apply obind_ext. intros checked.
  cbn [pop_transform kw_transform default]. unfold null_tranform at 1.
  by rewrite obind_oret_l.
Qed.

(** X5. When the transport fails, the call raises the transport's
    exception: no stage runs and nothing is printed, but the request has
    counted as sent and the default dictionary has already taken the
    overlay. *)
Theorem transport_failure_leaves_headers_updated
    base_url l error_handler logger segment kw w d e :
  heap w !! l = Some d ->
  transport (sent w) (dispatched base_url segment kw d) = inl e ->
  to_get transport base_url (Some l) error_handler logger segment kw w
  = (inl e,
     mk_world (<[l := default ∅ (kw_headers kw) ∪ d]> (heap w))
              (sent w ++ [dispatched base_url segment kw d]) (stdout w)).
Proof.
  intros Hd He. rewrite (to_get_Some _ _ _ _ _ _ _ _ _ Hd). cbv zeta.
  by rewrite He.
Qed.

(** X6. A call changes the store at its own default dictionary only, and
    not even there when it brings no overlay or one the dictionary already
    contains; it hands exactly one request to the HTTP library. *)
Theorem call_touches_only_its_own_headers
    base_url l error_handler logger segment kw w d :
  heap w !! l = Some d ->
  let w' := (to_get transport base_url (Some l) error_handler logger segment kw w).2 in
  (forall l', l' <> l -> heap w' !! l' = heap w !! l')
  /\ (default ∅ (kw_headers kw) ⊆ d -> heap w' = heap w)
  /\ (kw_headers kw = None -> heap w' = heap w)
  /\ length (sent w') = S (length (sent w)).
Proof.
  intros Hd w'.
  assert (Hheap : heap w' = <[l := default ∅ (kw_headers kw) ∪ d]> (heap w))
    by (by apply to_get_heap).
  assert (Hsub : default ∅ (kw_headers kw) ⊆ d -> heap w' = heap w).
  { intros Hsub. rewrite Hheap, (map_subseteq_union _ _ Hsub). by apply insert_id. }
  split; [intros l' Hl'; rewrite Hheap; by apply lookup_insert_ne |].
  split; [exact Hsub |].
  split; [intros Hkw; apply Hsub; rewrite Hkw; apply map_empty_subseteq |].
  unfold w'. destruct (to_get_sends transport base_url l error_handler logger segment kw w)
    as [hs ->].
  rewrite length_app. cbn. lia.
Qed.

(** X7. Two pipelines created with the same dictionary, as every [rget]
    and [TodoClient] of the notebook is with [DEFAULT_HEADER], share what
    calls put into it: the overlay given to a call on one is sent by the
    next call on the other. A pipeline created with another dictionary
    sends that one, untouched. *)
Theorem pipelines_sharing_a_dictionary_share_overlays
    base_url1 error_handler1 logger1 segment1 kw1
    base_url2 error_handler2 logger2 segment2 kw2 l w d :
  heap w !! l = Some d ->
  let w1 := (to_get transport base_url1 (Some l) error_handler1 logger1
               segment1 kw1 w).2 in
  sent (to_get transport base_url2 (Some l) error_handler2 logger2
          segment2 kw2 w1).2
    = sent w1 ++ [dispatched base_url2 segment2 kw2 (default ∅ (kw_headers kw1) ∪ d)]
  /\ (forall l' d', l' <> l -> heap w !! l' = Some d' ->
        sent (to_get transport base_url2 (Some l') error_handler2 logger2
                segment2 kw2 w1).2
          = sent w1 ++ [dispatched base_url2 segment2 kw2 d']).
Proof.
  intros Hd w1.
  assert (Hheap : heap w1 = <[l := default ∅ (kw_headers kw1) ∪ d]> (heap w))
    by (by apply to_get_heap).
  split.
  - assert (Hl : heap w1 !! l = Some (default ∅ (kw_headers kw1) ∪ d))
      by (rewrite Hheap; apply lookup_insert_eq).
    rewrite (to_get_Some _ _ _ _ _ _ _ _ _ Hl). cbv zeta.
    by destruct (transport _ _).
  - intros l' d' Hne Hd'.
    assert (Hl' : heap w1 !! l' = Some d')
      by (rewrite Hheap, lookup_insert_ne; done).
    rewrite (to_get_Some _ _ _ _ _ _ _ _ _ Hl'). cbv zeta.
    by destruct (transport _ _).
Qed.

End MorePipeline.

(** ** Decoding lists of todos *)

Lemma from_d_each_inr (xs : list value) (ts : list Todo.t) :
  from_d_each xs = inr ts <-> Forall2 (fun x t => Todo.from_d x = inr t) xs ts.
Proof.
  revert ts. induction xs as [| x xs IH]; intros ts; cbn [from_d_each].
  - split; [intros [= <-]; constructor | intros Hts; by inversion Hts].
  - destruct (Todo.from_d x) as [e | t] eqn:Hx; cbn [rbind].
    + split; [discriminate | intros Hts; inversion Hts; congruence].
    + destruct (from_d_each xs) as [e | ts'] eqn:Hxs; cbn [rbind].
      * split; [discriminate |]. intros Hts. inversion Hts as [| ? t' ? ts'' Ht Hrest]; subst.
        apply IH in Hrest. discriminate.
      * split.
        -- intros [= <-]. constructor; [exact Hx | by apply IH].
        -- intros Hts. inversion Hts as [| ? t' ? ts'' Ht Hrest]; subst.
           apply IH in Hrest. congruence.
Qed.

Lemma from_d_each_inl (xs : list value) (e : exn) :
  from_d_each xs = inl e <->
  exists pre x post ts,
    xs = pre ++ x :: post
    /\ Forall2 (fun y t => Todo.from_d y = inr t) pre ts
    /\ Todo.from_d x = inl e.
Proof.
  induction xs as [| x xs IH]; cbn [from_d_each].
  - split; [discriminate |]. intros (pre & y & post & ts & Hxs & _). by destruct pre.
  - destruct (Todo.from_d x) as [e' | t] eqn:Hx; cbn [rbind].
    + split.
      * intros [= <-]. exists [], x, xs, []. repeat split; [constructor | exact Hx].
      * intros (pre & y & post & ts & Hxs & Hpre & Hy).
        destruct pre as [| p pre]; cbn in Hxs; injection Hxs as <- Hxs; [congruence |].
        inversion Hpre; congruence.
    + destruct (from_d_each xs) as [e' | ts'] eqn:Hxs; cbn [rbind].
      * split.
        -- intros [= <-]. destruct (proj1 IH eq_refl) as (pre & y & post & ts & -> & Hpre & Hy).
           exists (x :: pre), y, post, (t :: ts). repeat split; [by constructor | exact Hy].
        -- intros (pre & y & post & ts & Heq & Hpre & Hy).
           destruct pre as [| p pre]; cbn in Heq; injection Heq as <- Heq; [congruence |].
           inversion Hpre; subst. apply IH. by exists pre, y, post, l'.
      * split; [discriminate |].
        intros (pre & y & post & ts & Heq & Hpre & Hy).
        destruct pre as [| p pre]; cbn in Heq; injection Heq as <- Heq; [congruence |].
        inversion Hpre; subst.
        assert (Hbad : @inr exn _ ts' = inl e)
          by (apply IH; by exists pre, y, post, l').
        discriminate Hbad.
Qed.

Lemma init_well_typed a b c e t :
  Todo.init a b c e = inr t -> t = Todo.mk a b c e /\ well_typed t = true.
Proof.
  rewrite init_first_failure. unfold well_typed.
  destruct (isinstance a int) eqn:Ha; [| discriminate].
  destruct (isinstance b int) eqn:Hb; [| discriminate].
  destruct (isinstance c str) eqn:Hc; [| discriminate].
  destruct (isinstance e bool_) eqn:He; [| discriminate].
  intros [= <-]. split; [reflexivity |]. cbn -[isinstance].
  by rewrite Ha, Hb, Hc, He.
Qed.

Lemma from_d_well_typed d t : Todo.from_d d = inr t -> well_typed t = true.
Proof.
  unfold Todo.from_d.
  destruct (Todo.subscript d "id") as [? | a]; [discriminate |].
  destruct (Todo.subscript d "userId") as [? | b]; [discriminate |].
  destruct (Todo.subscript d "title") as [? | c]; [discriminate |].
  destruct (Todo.subscript d "completed") as [? | e]; [discriminate |].
  cbn [rbind]. intros Ht. by apply init_well_typed in Ht as [_ Ht].
Qed.

Lemma to_todos_of_body r d :
  Response.json_body r = Some d ->
  to_todos (OResponse r) = lift_result (rbind (iterate d) from_d_each).
Proof.
  intros Hr. unfold to_todos. cbn [as_response]. rewrite obind_oret_l.
  unfold Response.json. rewrite Hr. unfold lift_result at 1.
  change (@pair (list output) (result value) [] (inr d)) with (oret d).
  by rewrite obind_oret_l.
Qed.

(** X8. On a body that is a JSON array, [to_todos] returns the decoded
    elements in the order of the array, one for each element, all with
    fields of the declared classes; it fails exactly when some element
    does not decode, with the failure of the first such element, and
    returns no partial list. *)
Theorem to_todos_decodes_in_order (r : Response.t) (l : list value) :
  Response.json_body r = Some (VList l) ->
  (forall ts, to_todos (OResponse r) = oret ts <->
              Forall2 (fun x t => Todo.from_d x = inr t) l ts)
  /\ (forall e, to_todos (OResponse r) = oraise e <->
               exists pre x post ts,
                 l = pre ++ x :: post
                 /\ Forall2 (fun y t => Todo.from_d y = inr t) pre ts
                 /\ Todo.from_d x = inl e)
  /\ (forall ts, to_todos (OResponse r) = oret ts ->
                 length ts = length l
                 /\ Forall (fun t => well_typed t = true) ts).
Proof.
  intros Hr. rewrite (to_todos_of_body r _ Hr). cbn [iterate rbind].
  unfold lift_result, oret, oraise.
  assert (Hok : forall ts, ([] : list output, from_d_each l) = ([], inr ts) <->
                           Forall2 (fun x t => Todo.from_d x = inr t) l ts).
  { intros ts. rewrite <- from_d_each_inr. split; [by intros [= ->] | by intros ->]. }
  split; [exact Hok |]. split.
  - intros e. rewrite <- from_d_each_inl. split; [by intros [= ->] | by intros ->].
  - intros ts Hts. apply Hok in Hts. split; [symmetry; by eapply Forall2_length |].
    clear Hok Hr. induction Hts as [| x t xs ts Hx _ IH]; constructor; [| exact IH].
    by eapply from_d_well_typed.
Qed.

(** X9. On a body that is a JSON object, [to_todos] walks the keys: the
    empty object, the body of the service's 404, gives the empty list
    without any failure, and an object with at least one key raises
    [TypeError], the key being a string and not a dictionary. *)
Theorem to_todos_on_an_object (r : Response.t) (m : gmap string value) :
  Response.json_body r = Some (VDict m) ->
  to_todos (OResponse r)
  = if decide (m = ∅) then oret []
    else oraise (TypeError "string indices must be integers").
Proof.
  intros Hr. rewrite (to_todos_of_body r _ Hr). cbn [iterate rbind].
  destruct (decide (m = ∅)) as [-> | Hne].
  - by rewrite map_to_list_empty.
  - destruct (map_to_list m) as [| [k v] kvs] eqn:Hkvs.
    + by apply map_to_list_empty_iff in Hkvs.
    + reflexivity.
Qed.

(** ** What the decoders can return *)

Lemma to_todo_cases (x : pyobj) :
  (exists e, to_todo x = oraise e)
  \/ (exists t, to_todo x = oret (OTodo t) /\ well_typed t = true).
Proof.
  unfold to_todo, Response.json. destruct x as [r | t | v];
    try (left; by eexists).
  destruct (Response.json_body r) as [d |] eqn:Hr; [| left; eexists; cbn; by rewrite Hr].
  destruct (Todo.from_d d) as [e | t] eqn:Hd.
  - left. exists e. cbn. rewrite Hr. cbn. by rewrite Hd.
  - right. exists t. split; [| by eapply from_d_well_typed].
    cbn. rewrite Hr. cbn. by rewrite Hd.
Qed.

(** X10. The two decoders print nothing, and whatever they return is
    checked: [to_todo] returns a [Todo] whose fields are instances of
    their declared classes, [to_todo_or_none] returns such a [Todo] or
    [None], and neither ever returns the response or a partly built
    record. *)
Theorem decoders_return_validated_todos (x : pyobj) :
  (to_todo x).1 = []
  /\ (to_todo_or_none x).1 = []
  /\ (forall y, (to_todo x).2 = inr y ->
                exists t, y = OTodo t /\ well_typed t = true)
  /\ (forall y, (to_todo_or_none x).2 = inr y ->
                y = None_ \/ exists t, y = OTodo t /\ well_typed t = true).
Proof.
  unfold to_todo_or_none, try_except_KeyError_AttributeError.
  destruct (to_todo_cases x) as [[e ->] | (t & -> & Ht)].
  - repeat split; [by destruct e | discriminate |].
    intros y. destruct e; cbn; intros [= <-] || discriminate; by left.
  - repeat split.
    + intros y [= <-]. by exists t.
    + intros y [= <-]. right. by exists t.
Qed.

(** ** Which keys [from_d] reads, and in which order *)

Lemma first_missing_cases (m : gmap string value) :
  first_missing m =
    match m !! "id", m !! "userId", m !! "title", m !! "completed" with
    | None, _, _, _ => Some "id"
    | Some _, None, _, _ => Some "userId"
    | Some _, Some _, None, _ => Some "title"
    | Some _, Some _, Some _, None => Some "completed"
    | Some _, Some _, Some _, Some _ => None
    end.
Proof.
  unfold first_missing. rewrite !filter_cons, filter_nil.
  destruct (m !! "id"), (m !! "userId"), (m !! "title"), (m !! "completed");
    repeat case_decide; done.
Qed.

(** X11. [Todo.from_d] reads the keys [id], [userId], [title] and
    [completed] and no other: two bodies that agree on these decode
    alike. All four are read before anything is validated, so a body
    lacking one raises [KeyError] for the first it lacks, in that order,
    even when a value it does have is of the wrong class; a body with all
    four never raises [KeyError]. *)
Theorem from_d_reads_four_keys (m : gmap string value) :
  (forall k, Todo.from_d (VDict m) = inl (KeyError k) <-> first_missing m = Some k)
  /\ (forall m' : gmap string value,
        (forall k, k ∈ ["id"; "userId"; "title"; "completed"] -> m !! k = m' !! k) ->
        Todo.from_d (VDict m) = Todo.from_d (VDict m')).
Proof.
  split.
  - intros k. rewrite first_missing_cases. unfold Todo.from_d, Todo.subscript.
    destruct (m !! "id") as [a |]; cbn [rbind]; [| split; congruence].
    destruct (m !! "userId") as [b |]; cbn [rbind]; [| split; congruence].
    destruct (m !! "title") as [c |]; cbn [rbind]; [| split; congruence].
    destruct (m !! "completed") as [e |]; cbn [rbind]; [| split; congruence].
    rewrite init_first_failure.
    split; [| discriminate].
    destruct (isinstance a int), (isinstance b int), (isinstance c str),
      (isinstance e bool_); discriminate.
  - intros m' Hagree. unfold Todo.from_d, Todo.subscript.
    rewrite <- !Hagree; [reflexivity | set_solver ..].
Qed.

(** ** Loggers and error handlers *)

Lemma simple_logger_hands_back now : hands_back (simple_logger now).
Proof.
  intros x o y. unfold simple_logger.
  destruct x as [r | t | v]; cbn; congruence.
Qed.

Lemma default_error_handler_hands_back : hands_back default_error_handler.
Proof.
  intros x o y. unfold default_error_handler.
  destruct x as [r | t | v]; cbn; try congruence.
  destruct (Response.ok r); cbn; congruence.
Qed.

Lemma hooks_see_the_same_object (hooks : list stage) (x : pyobj) :
  Forall hands_back hooks ->
  match fold_right (fun s acc => obind acc s) (oret x) hooks with
  | (_, inr y) => y = x
  | (_, inl e) => exists h, h ∈ hooks /\ (h x).2 = inl e
  end.
Proof.
  induction 1 as [| h hooks Hh _ IH]; cbn [fold_right]; [reflexivity |].
  destruct (fold_right _ _ hooks) as [o [e | y]]; cbn [obind].
  - destruct IH as (h' & Hin & He). exists h'. split; [by right | exact He].
  - subst y. destruct (h x) as [o' [e | y']] eqn:Hhx.
    + exists h. split; [by left | by rewrite Hhx].
    + by eapply Hh.
Qed.

(** X12. Every logger and error handler of [Loggers] and [ErrorHandlers]
    hands back the object it was given whenever it returns. However many
    such functions are composed after a transform, in whatever order, the
    transform is applied to the very object the composition was called
    on, unless one of them raised on that object, and then the
    composition raises the same. *)
Theorem hooks_never_replace_the_response now :
  hands_back (Loggers.DEFAULT now) /\ hands_back Loggers.NULL
  /\ hands_back ErrorHandlers.DEFAULT /\ hands_back ErrorHandlers.NULL
  /\ forall (t : stage) (hooks : list stage),
       Forall hands_back hooks ->
       exists c,
         compose (t :: hooks) = inr c
         /\ forall x,
              (c x).2 = (t x).2
              \/ exists h e, h ∈ hooks /\ (h x).2 = inl e /\ (c x).2 = inl e.
Proof.
  split; [apply simple_logger_hands_back |].
  split; [by intros x o y [= _ <-] |].
  split; [apply default_error_handler_hands_back |].
  split; [by intros x o y [= _ <-] |].
  intros t hooks Hhooks. exists (fold_left compose_two hooks t).
  split; [reflexivity |]. intros x. rewrite fold_left_compose_two.
  pose proof (hooks_see_the_same_object hooks x Hhooks) as Hsame.
  destruct (fold_right _ _ hooks) as [o [e | y]]; cbn [obind].
  - right. destruct Hsame as (h & Hin & He). by exists h, e.
  - subst y. left. by destruct (t x).
Qed.

(** ** The clients *)

Lemma to_todo_or_none_silent (x : pyobj) : (to_todo_or_none x).1 = [].
Proof.
  unfold to_todo_or_none, try_except_KeyError_AttributeError.
  destruct (to_todo_cases x) as [[e ->] | (t & -> & _)]; [by destruct e | done].
Qed.

Section Clients.

Variable transport : list Request -> Request -> result Response.t.
Variable DEFAULT_HEADER : loc.

Lemma get_todo_by_id_body
    now base_url hdrs lg eh ix w d r :
  let self := TodoClient.init transport DEFAULT_HEADER base_url hdrs lg eh in
  let request := mk_Request (base_url +:+ "/" +:+ todos_segment ix) (Some d) ∅ in
  heap w !! TodoClient.headers self = Some d ->
  transport (sent w) request = inr r ->
  TodoClient.get_todo_by_id transport now self ix w
  = ((to_todo_or_none (OResponse r)).2,
     mk_world (heap w) (sent w ++ [request])
       (stdout w ++ [LogLine now (Response.url r) (Response.status_code r)
                       (Response.elapsed r)])).
Proof.
  intros self request Hd Hr. unfold TodoClient.get_todo_by_id.
  rewrite (to_get_Some _ _ _ _ _ _ _ _ _ Hd). cbv zeta.
  unfold dispatched. cbn [kw_headers kw_rest default].
  rewrite (left_id_L ∅ (∪) d). fold self. cbn [TodoClient.base_url self TodoClient.init].
  fold request. rewrite Hr, (insert_id _ _ _ Hd).
  unfold chain. cbv [default from_option id kw_transform].
  pose proof (to_todo_or_none_silent (OResponse r)) as Hsilent.
  destruct (to_todo_or_none (OResponse r)) as [o res] eqn:Hdec.
  cbn in Hsilent. subst o.
  unfold simple_logger, null_tranform. cbn -[to_todo_or_none]. by rewrite Hdec.
Qed.

(** X13. [get_todo_by_id] of the final client makes its own pipeline, with
    [simple_logger] and no error handler: the logger and the error handler
    the client was created with play no part, and neither does the status
    of the response. The call sends the client's headers to
    [base_url/todos/ix], prints one log line, leaves the store as it was,
    and returns or raises what [to_todo_or_none] does on the response. *)
Theorem get_todo_by_id_looks_at_the_body_only
    now base_url hdrs lg eh ix w d r :
  let self := TodoClient.init transport DEFAULT_HEADER base_url hdrs lg eh in
  let request := mk_Request (base_url +:+ "/" +:+ todos_segment ix) (Some d) ∅ in
  heap w !! TodoClient.headers self = Some d ->
  transport (sent w) request = inr r ->
  TodoClient.get_todo_by_id transport now self ix w
  = ((to_todo_or_none (OResponse r)).2,
     mk_world (heap w) (sent w ++ [request])
       (stdout w ++ [LogLine now (Response.url r) (Response.status_code r)
                       (Response.elapsed r)])).
Proof. intros self request Hd Hr. by apply get_todo_by_id_body. Qed.

(** X14. On a response that is not [ok] and whose body lacks one of the
    keys of a todo, such as the service's 404, the first client, with
    [default_error_handler] and a logger that hands the response back,
    raises the failure of the error handler, and the final client returns
    [None]. *)
Theorem first_client_raises_where_final_returns_None
    now base_url hdrs lg ix w d r m :
  let self1 := TodoClient1.init transport DEFAULT_HEADER base_url hdrs (Some lg)
                 (Some default_error_handler) in
  let self := TodoClient.init transport DEFAULT_HEADER base_url hdrs (Some lg)
                (Some default_error_handler) in
  let request := mk_Request (base_url +:+ "/" +:+ todos_segment ix) (Some d) ∅ in
  heap w !! TodoClient.headers self = Some d ->
  transport (sent w) request = inr r ->
  returns_response lg ->
  Response.ok r = false ->
  Response.json_body r = Some (VDict m) ->
  is_Some (first_missing m) ->
  (TodoClient1.get_todo_by_id self1 ix w).1
    = inl (Exception (Response.url r) (Response.status_code r)
             (take 25 (Response.content r)))
  /\ (TodoClient.get_todo_by_id transport now self ix w).1 = inr None_.
Proof.
  intros self1 self request Hd Hr Hlg Hok Hbody [k Hk]. split.
  - unfold TodoClient1.get_todo_by_id, self1, TodoClient1.init.
    cbn [TodoClient1.rget].
    change (match hdrs with Some hd => hd | None => DEFAULT_HEADER end)
      with (TodoClient.headers self).
    rewrite (to_get_Some _ _ _ _ _ _ _ _ _ Hd). cbv zeta.
    unfold dispatched. cbn [kw_headers kw_rest default].
    rewrite (left_id_L ∅ (∪) d). fold request. rewrite Hr. cbn [fst].
    unfold chain. cbv [default from_option id kw_transform]. specialize (Hlg r).
    destruct (lg (OResponse r)) as [o res]. cbn in Hlg. subst res.
    unfold default_error_handler. cbn. by rewrite Hok.
  - unfold self.
    rewrite (get_todo_by_id_body now base_url hdrs (Some lg)
               (Some default_error_handler) ix w d r Hd Hr). cbn [fst].
    unfold to_todo_or_none, to_todo, Response.json. cbn [as_response].
    rewrite obind_oret_l, Hbody.
    assert (Hfrom : Todo.from_d (VDict m) = inl (KeyError k)).
    { rewrite first_missing_cases in Hk. unfold Todo.from_d, Todo.subscript.
      destruct (m !! "id"); [| by injection Hk as <-].
      destruct (m !! "userId"); [| by injection Hk as <-].
      destruct (m !! "title"); [| by injection Hk as <-].
      destruct (m !! "completed"); [discriminate | by injection Hk as <-]. }
    cbn. by rewrite Hfrom.
Qed.

End Clients.

(** ** Further calls, replayed *)

(** A call with a token while the network is down. *)
Lemma transport_failure_leaves_headers_updated_witness :
  heap Demo.w0 !! 0 = Some Demo.DEFAULT_HEADER
  /\ Scenario.offline (sent Demo.w0)
       (dispatched Demo.BASE_URL "todos/1" (Demo.with_headers {[ "token" := "t1" ]})
          Demo.DEFAULT_HEADER)
     = inl (RequestException "Max retries exceeded")
  /\ to_get Scenario.offline Demo.BASE_URL (Some 0) (Some default_error_handler)
       (Some (simple_logger Demo.now)) "todos/1"
       (Demo.with_headers {[ "token" := "t1" ]}) Demo.w0
     = (inl (RequestException "Max retries exceeded"),
        mk_world (<[0 := {[ "token" := "t1" ]} ∪ Demo.DEFAULT_HEADER]> (heap Demo.w0))
          (sent Demo.w0
           ++ [dispatched Demo.BASE_URL "todos/1"
                 (Demo.with_headers {[ "token" := "t1" ]}) Demo.DEFAULT_HEADER])
          (stdout Demo.w0)).
Proof.
  split; [apply w0_default_header |]. split; [reflexivity |].
  exact (transport_failure_leaves_headers_updated Scenario.offline Demo.BASE_URL 0
           (Some default_error_handler) (Some (simple_logger Demo.now)) "todos/1"
           (Demo.with_headers {[ "token" := "t1" ]}) Demo.w0 Demo.DEFAULT_HEADER
           (RequestException "Max retries exceeded") w0_default_header eq_refl).
Defined.

(** A call without headers leaves [DEFAULT_HEADER] as it is. *)
Lemma call_touches_only_its_own_headers_witness :
  heap Demo.w0 !! 0 = Some Demo.DEFAULT_HEADER
  /\ heap (to_get Demo.server Demo.BASE_URL (Some 0) None None "todos/1"
             Demo.no_kw Demo.w0).2
     = heap Demo.w0.
Proof.
  split; [apply w0_default_header |].
  destruct (call_touches_only_its_own_headers Demo.server Demo.BASE_URL 0 None None
              "todos/1" Demo.no_kw Demo.w0 Demo.DEFAULT_HEADER w0_default_header)
    as (_ & _ & Hsame & _).
  by apply Hsame.
Defined.

(** A token given to one [rget] is sent by another [rget] made from the
    same [DEFAULT_HEADER]. *)
Lemma pipelines_sharing_a_dictionary_share_overlays_witness :
  heap Scenario.w2 !! 0 = Some Demo.DEFAULT_HEADER
  /\ last (sent (to_get Demo.server "https://example.org" (Some 0)
                   (Some default_error_handler) None "users" Demo.no_kw
                   (to_get Demo.server Demo.BASE_URL (Some 0) None None "todos/1"
                      (Demo.with_headers {[ "token" := "t1" ]}) Scenario.w2).2).2)
     = Some (mk_Request "https://example.org/users"
               (Some ({[ "token" := "t1" ]} ∪ Demo.DEFAULT_HEADER)) ∅).
Proof.
  assert (Hd : heap Scenario.w2 !! 0 = Some Demo.DEFAULT_HEADER)
    by (vm_compute; reflexivity).
  split; [exact Hd |].
  destruct (pipelines_sharing_a_dictionary_share_overlays Demo.server
              Demo.BASE_URL None None "todos/1" (Demo.with_headers {[ "token" := "t1" ]})
              "https://example.org" (Some default_error_handler) None "users" Demo.no_kw
              0 Scenario.w2 Demo.DEFAULT_HEADER Hd) as [Hsent _].
  rewrite Hsent, last_snoc. unfold dispatched. cbn [Demo.no_kw kw_headers kw_rest default].
  by rewrite (left_id_L ∅ (∪)).
Defined.

(** The two todos of a page, in order. *)
Lemma to_todos_decodes_in_order_witness :
  Response.json_body (Scenario.todos_page (Demo.BASE_URL +:+ "/todos"))
    = Some (VList [Demo.first_todo; Demo.first_todo])
  /\ to_todos (OResponse (Scenario.todos_page (Demo.BASE_URL +:+ "/todos")))
     = oret [Todo.mk (VInt 1) (VInt 1) (VStr "delectus aut autem") (VBool false);
             Todo.mk (VInt 1) (VInt 1) (VStr "delectus aut autem") (VBool false)].
Proof.
  split; [reflexivity |].
  destruct (to_todos_decodes_in_order
              (Scenario.todos_page (Demo.BASE_URL +:+ "/todos"))
              [Demo.first_todo; Demo.first_todo] eq_refl) as (Hok & _).
  apply Hok. repeat constructor; vm_compute; reflexivity.
Defined.

(** The body [{}] of a 404 read as a list of todos. *)
Lemma to_todos_on_an_object_witness :
  Response.json_body (Demo.not_found (Demo.BASE_URL +:+ "/todoz")) = Some (VDict ∅)
  /\ to_todos (OResponse (Demo.not_found (Demo.BASE_URL +:+ "/todoz"))) = oret [].
Proof.
  split; [reflexivity |].
  rewrite (to_todos_on_an_object (Demo.not_found (Demo.BASE_URL +:+ "/todoz")) ∅ eq_refl).
  by rewrite decide_True.
Defined.

(** A client whose server answers 500 with a todo in the body: the final
    [get_todo_by_id] returns the todo. *)
Lemma get_todo_by_id_looks_at_the_body_only_witness :
  heap Demo.w0
    !! TodoClient.headers
         (TodoClient.init Scenario.failing_with_todo 0 Demo.BASE_URL None
            (Some null_logger) (Some default_error_handler))
    = Some Demo.DEFAULT_HEADER
  /\ Scenario.failing_with_todo (sent Demo.w0)
       (mk_Request (Demo.BASE_URL +:+ "/" +:+ todos_segment (IxInt 1))
          (Some Demo.DEFAULT_HEADER) ∅)
     = inr (Response.mk (Demo.BASE_URL +:+ "/todos/1") 500 false "0.01" []
              (Some Demo.first_todo))
  /\ (TodoClient.get_todo_by_id Scenario.failing_with_todo Demo.now
        (TodoClient.init Scenario.failing_with_todo 0 Demo.BASE_URL None
           (Some null_logger) (Some default_error_handler))
        (IxInt 1) Demo.w0).1
     = inr (OTodo (Todo.mk (VInt 1) (VInt 1) (VStr "delectus aut autem") (VBool false))).
Proof.
  assert (Hr : Scenario.failing_with_todo (sent Demo.w0)
                 (mk_Request (Demo.BASE_URL +:+ "/" +:+ todos_segment (IxInt 1))
                    (Some Demo.DEFAULT_HEADER) ∅)
               = inr (Response.mk (Demo.BASE_URL +:+ "/todos/1") 500 false "0.01" []
                        (Some Demo.first_todo)))
    by (vm_compute; reflexivity).
  split; [apply w0_default_header |]. split; [exact Hr |].
  rewrite (get_todo_by_id_looks_at_the_body_only Scenario.failing_with_todo 0 Demo.now
             Demo.BASE_URL None (Some null_logger) (Some default_error_handler)
             (IxInt 1) Demo.w0 Demo.DEFAULT_HEADER _ w0_default_header Hr).
  vm_compute. reflexivity.
Defined.

(** [get_todo_by_id("DOES-NOT-EXIST")] on the two clients. *)
Lemma first_client_raises_where_final_returns_None_witness :
  heap Demo.w0
    !! TodoClient.headers
         (TodoClient.init Demo.server 0 Demo.BASE_URL None
            (Some (simple_logger Demo.now)) (Some default_error_handler))
    = Some Demo.DEFAULT_HEADER
  /\ Demo.server (sent Demo.w0)
       (mk_Request (Demo.BASE_URL +:+ "/" +:+ todos_segment (IxStr "DOES-NOT-EXIST"))
          (Some Demo.DEFAULT_HEADER) ∅)
     = inr (Demo.not_found (Demo.BASE_URL +:+ "/todos/DOES-NOT-EXIST"))
  /\ returns_response (simple_logger Demo.now)
  /\ Response.ok (Demo.not_found (Demo.BASE_URL +:+ "/todos/DOES-NOT-EXIST")) = false
  /\ Response.json_body (Demo.not_found (Demo.BASE_URL +:+ "/todos/DOES-NOT-EXIST"))
     = Some (VDict ∅)
  /\ is_Some (first_missing ∅)
  /\ (TodoClient.get_todo_by_id Demo.server Demo.now
        (TodoClient.init Demo.server 0 Demo.BASE_URL None
           (Some (simple_logger Demo.now)) (Some default_error_handler))
        (IxStr "DOES-NOT-EXIST") Demo.w0).1
     = inr None_.
Proof.
  assert (Hr : Demo.server (sent Demo.w0)
                 (mk_Request
                    (Demo.BASE_URL +:+ "/" +:+ todos_segment (IxStr "DOES-NOT-EXIST"))
                    (Some Demo.DEFAULT_HEADER) ∅)
               = inr (Demo.not_found (Demo.BASE_URL +:+ "/todos/DOES-NOT-EXIST")))
    by (vm_compute; reflexivity).
  assert (Hmissing : is_Some (first_missing ∅)) by (exists "id"; vm_compute; reflexivity).
  split; [apply w0_default_header |]. split; [exact Hr |].
  split; [apply simple_logger_returns_response |].
  split; [reflexivity |]. split; [reflexivity |]. split; [exact Hmissing |].
  apply (first_client_raises_where_final_returns_None Demo.server 0 Demo.now
           Demo.BASE_URL None (simple_logger Demo.now) (IxStr "DOES-NOT-EXIST")
           Demo.w0 Demo.DEFAULT_HEADER
           (Demo.not_found (Demo.BASE_URL +:+ "/todos/DOES-NOT-EXIST")) ∅
           w0_default_header Hr (simple_logger_returns_response Demo.now)
           eq_refl eq_refl Hmissing).
Defined.

(** * Properties of the command-line notebook *)

Lemma for_each_prints {A} (xs : list A) (line : string) :
  CLI.for_each xs (fun _ => CLI.cprint line)
  = (replicate (length xs) (CLI.Printed line), inr tt).
Proof.
  induction xs as [| x xs IH]; [reflexivity |].
  cbn [CLI.for_each]. rewrite IH. reflexivity.
Qed.

(** X15. [lib_hello(name, num_times)] prints the greeting [num_times]
    times and returns [None]; for zero or a negative number it prints
    nothing; with [num_times] 1 it is the [lib_hello] of iteration #1.
    [run_hello] on arguments without [num_times] raises [AttributeError]
    before anything is printed. *)
Theorem lib_hello_prints_num_times (name : string) (num_times : Z) :
  CLI.Iteration2.lib_hello name num_times
  = (replicate (Z.to_nat num_times) (CLI.Printed ("Hello, " +:+ name +:+ "!")),
     inr VNone)
  /\ CLI.Iteration2.lib_hello name 1 = CLI.Iteration1.lib_hello name
  /\ forall lv lf,
       exists msg,
         CLI.Iteration2.run_hello (CLI.mk_Namespace (Some name) None lv lf)
         = CLI.craise (CLI.Raised "AttributeError" msg).
Proof.
  split; [| split; [reflexivity | by eexists]].
  unfold CLI.Iteration2.lib_hello. rewrite for_each_prints.
  unfold CLI.range. rewrite length_fmap, length_seq, Z.sub_0_r.
  cbn. by rewrite app_nil_r.
Qed.

Lemma error_handler_codes (ex : CLI.pyexc) (default_error_code : Z) :
  (CLI.class_name_of ex = "ZeroDivisionError" /\ CLI.error_handler ex default_error_code = 7%Z)
  \/ (CLI.class_name_of ex = "IOError" /\ CLI.error_handler ex default_error_code = 3%Z)
  \/ (CLI.class_name_of ex = "ValueError" /\ CLI.error_handler ex default_error_code = 4%Z)
  \/ CLI.error_handler ex default_error_code = default_error_code.
Proof.
  unfold CLI.error_handler. cbv zeta.
  destruct (decide (CLI.class_name_of ex = "ZeroDivisionError")) as [-> | H1];
    [left; split; [reflexivity | by vm_compute] |].
  destruct (decide (CLI.class_name_of ex = "IOError")) as [-> | H2];
    [right; left; split; [reflexivity | by vm_compute] |].
  destruct (decide (CLI.class_name_of ex = "ValueError")) as [-> | H3];
    [right; right; left; split; [reflexivity | by vm_compute] |].
  right; right; right.
  rewrite !lookup_insert_ne by done. rewrite lookup_singleton_ne by done.
  reflexivity.
Qed.

(** Both sides are the same events, differently bracketed. *)
Ltac list_flat := rewrite ?app_nil_r, <- ?app_assoc; reflexivity.

Section RunnerProperties.

Variable parse_args : list string -> CLI.Cmd CLI.Parsed.
Variable started_at : string.

(** X16. The [runner] of iteration #4, once the arguments are parsed and
    the logger is set up, returns 0 exactly when the command returned.
    When the command raises an exception derived from [Exception], the
    runner raises nothing and returns the code of [error_handler], one of
    7, 3, 4 or 1, never 0; in both cases [run_epilogue] runs last, with
    the code returned. An exit request or a keyboard interrupt from the
    command passes through, and [run_epilogue] does not run. *)
Theorem runner_returns_0_iff_the_command_returned
    argv setup_logger run_epilogue p lv lf f o0 o1 :
  parse_args argv = (o0, inr p) ->
  CLI.level (CLI.pargs p) = Some lv ->
  CLI.log_file (CLI.pargs p) = Some lf ->
  CLI.func p = Some f ->
  setup_logger lv lf = (o1, inr tt) ->
  (forall code, (run_epilogue code started_at).2 = inr tt) ->
  let before := o0 ++ o1 ++ [CLI.Debug (CLI.pargs p)] ++ (f (CLI.pargs p)).1 in
  let result := CLI.runner parse_args started_at argv setup_logger
                  CLI.error_handler_hook run_epilogue in
  result
  = match (f (CLI.pargs p)).2 with
    | inr _ => (before ++ (run_epilogue 0%Z started_at).1, inr 0%Z)
    | inl (CLI.Raised c m) =>
        let code := CLI.error_handler (CLI.Raised c m) 1 in
        (before ++ (run_epilogue code started_at).1, inr code)
    | inl ex => (before, inl ex)
    end
  /\ (result.2 = inr 0%Z <-> exists out, (f (CLI.pargs p)).2 = inr out)
  /\ (forall code, result.2 = inr code -> code ∈ [0; 1; 3; 4; 7]%Z).
Proof.
  intros Hparse Hlv Hlf Hf Hsetup Hepi before result.
  assert (Hresult : result
    = match (f (CLI.pargs p)).2 with
      | inr _ => (before ++ (run_epilogue 0%Z started_at).1, inr 0%Z)
      | inl (CLI.Raised c m) =>
          let code := CLI.error_handler (CLI.Raised c m) 1 in
          (before ++ (run_epilogue code started_at).1, inr code)
      | inl ex => (before, inl ex)
      end).
  { unfold result, before, CLI.runner, CLI.call_func.
    rewrite Hparse. cbn [CLI.cbind]. rewrite Hlv. cbn [CLI.getattr CLI.cbind CLI.cret].
    rewrite Hlf. cbn [CLI.getattr CLI.cbind CLI.cret]. rewrite Hsetup, Hf.
    cbn [CLI.getattr CLI.cbind CLI.cret].
    destruct (f (CLI.pargs p)) as [oc [[c m | code |] | out]]; cbn.
    - specialize (Hepi (CLI.error_handler (CLI.Raised c m) 1)).
      destruct (run_epilogue _ started_at) as [oe re]. cbn in Hepi. subst re.
      cbn. list_flat.
    - list_flat.
    - list_flat.
    - specialize (Hepi 0%Z).
      destruct (run_epilogue _ started_at) as [oe re]. cbn in Hepi. subst re.
      cbn. list_flat. }
  split; [exact Hresult |]. rewrite Hresult.
  destruct (f (CLI.pargs p)) as [oc [[c m | code |] | out]]; cbn.
  - pose proof (error_handler_codes (CLI.Raised c m) 1) as Hcodes. split.
    + split; [| by intros [? ?]]. intros [= Hzero].
      destruct Hcodes as [[_ H] | [[_ H] | [[_ H] | H]]]; rewrite H in Hzero; discriminate.
    + intros code [= <-].
      destruct Hcodes as [[_ ->] | [[_ ->] | [[_ ->] | ->]]]; set_solver.
  - split; [split; [discriminate | by intros [? ?]] | discriminate].
  - split; [split; [discriminate | by intros [? ?]] | discriminate].
  - split; [split; [by eexists | done] |]. intros code [= <-]. set_solver.
Qed.

(** X17. The [runner] of iteration #3 returns what the command returned,
    not an exit code. When the command raises an exception derived from
    [Exception], the exception goes to the logger, [run_epilogue] runs
    with the code 1, and the runner then raises [UnboundLocalError] at
    [return(out)], [out] never having been bound. An exit request or a
    keyboard interrupt passes through without [run_epilogue]. *)
Theorem runner3_raises_after_a_failed_command
    argv setup_logger run_epilogue p lv lf f o0 o1 :
  parse_args argv = (o0, inr p) ->
  CLI.level (CLI.pargs p) = Some lv ->
  CLI.log_file (CLI.pargs p) = Some lf ->
  CLI.func p = Some f ->
  setup_logger lv lf = (o1, inr tt) ->
  (forall code, (run_epilogue code started_at).2 = inr tt) ->
  let before := o0 ++ o1 ++ [CLI.Debug (CLI.pargs p)] ++ (f (CLI.pargs p)).1 in
  CLI.runner3 parse_args started_at argv setup_logger run_epilogue
  = match (f (CLI.pargs p)).2 with
    | inr out => (before ++ (run_epilogue 0%Z started_at).1, inr out)
    | inl (CLI.Raised c m) =>
        (before ++ [CLI.Error (CLI.Raised c m)] ++ (run_epilogue 1%Z started_at).1,
         inl (CLI.Raised "UnboundLocalError"
                "local variable 'out' referenced before assignment"))
    | inl ex => (before, inl ex)
    end.
Proof.
  intros Hparse Hlv Hlf Hf Hsetup Hepi before.
  unfold before, CLI.runner3, CLI.call_func.
  rewrite Hparse. cbn [CLI.cbind]. rewrite Hlv. cbn [CLI.getattr CLI.cbind CLI.cret].
  rewrite Hlf. cbn [CLI.getattr CLI.cbind CLI.cret]. rewrite Hsetup, Hf.
    cbn [CLI.getattr CLI.cbind CLI.cret].
  destruct (f (CLI.pargs p)) as [oc [[c m | code |] | out]]; cbn.
  - specialize (Hepi 1%Z).
    destruct (run_epilogue _ started_at) as [oe re]. cbn in Hepi. subst re.
    cbn. list_flat.
  - list_flat.
  - list_flat.
  - specialize (Hepi 0%Z).
    destruct (run_epilogue _ started_at) as [oe re]. cbn in Hepi. subst re.
    cbn. list_flat.
Qed.

End RunnerProperties.

(** * Properties of the closures *)

Lemma calls_f2_spec {E} (f : Z -> Z -> E + Z) (keys seen : list (Z * Z))
    (cache : gmap (Z * Z) Z) :
  cache_of f seen cache ->
  (calls_f2 f keys cache).1.*2 = (fun k => f k.1 k.2) <$> keys
  /\ cache_of f (seen ++ keys) (calls_f2 f keys cache).2
  /\ forall i k, keys !! i = Some k ->
       (calls_f2 f keys cache).1.*1 !! i
       = Some (expected_line f (seen ++ take i keys) k).
Proof.
  revert seen cache. induction keys as [| [m n] keys IH]; intros seen cache Hcache.
  { cbn. rewrite app_nil_r. split; [reflexivity |]. split; [exact Hcache |].
    intros i k Hk. by rewrite lookup_nil in Hk. }
  cbn [calls_f2 fst snd]. unfold Closures.f2.
  assert (Hstep : forall cache1 o r,
            cache_of f (seen ++ [(m, n)]) cache1 ->
            r = f m n ->
            o = expected_line f seen (m, n) ->
            (let '(rs, cache2) := calls_f2 f keys cache1 in ((o, r) :: rs, cache2)).1.*2
              = (fun k => f k.1 k.2) <$> (m, n) :: keys
            /\ cache_of f (seen ++ (m, n) :: keys)
                 (let '(rs, cache2) := calls_f2 f keys cache1 in ((o, r) :: rs, cache2)).2
            /\ forall i k, ((m, n) :: keys) !! i = Some k ->
                 (let '(rs, cache2) := calls_f2 f keys cache1 in ((o, r) :: rs, cache2)).1.*1
                   !! i
                 = Some (expected_line f (seen ++ take i ((m, n) :: keys)) k)).
  { intros cache1 o r Hcache1 -> ->.
    destruct (IH _ _ Hcache1) as (Hres & Hfinal & Hlines).
    destruct (calls_f2 f keys cache1) as [rs cache2]. cbn [fst snd] in *.
    rewrite <- app_assoc in Hfinal. cbn [app] in Hfinal.
    split; [cbn; by rewrite Hres |]. split; [exact Hfinal |].
    intros [| i] k Hk; cbn in Hk.
    - injection Hk as <-. cbn. by rewrite app_nil_r.
    - pose proof (Hlines i k Hk) as Hline. rewrite <- app_assoc in Hline.
      exact Hline. }
  destruct (cache !! (m, n)) as [value |] eqn:Hhit.
  - apply Hcache in Hhit as Hseen. destruct Hseen as [Hin Hf]. cbn in Hf.
    apply Hstep.
    + intros k v. rewrite (Hcache k v), elem_of_app, list_elem_of_singleton.
      split; [tauto |]. intros [[Hk | ->] Hv]; [tauto |].
      split; [exact Hin | exact Hv].
    + by rewrite Hf.
    + unfold expected_line. cbn. rewrite Hf. by rewrite decide_True.
  - destruct (f m n) as [e | v] eqn:Hf.
    + apply Hstep.
      * intros k v. rewrite (Hcache k v), elem_of_app, list_elem_of_singleton.
        split; [tauto |]. intros [[Hk | ->] Hv]; [tauto |]. cbn in Hv. congruence.
      * by rewrite ?Hf.
      * unfold expected_line. cbn. by rewrite ?Hf.
    + assert (Hfresh : (m, n) ∉ seen).
      { intros Hin. assert (Hsome : cache !! (m, n) = Some v) by (by apply Hcache).
        congruence. }
      apply Hstep.
      * intros k v'. rewrite elem_of_app, list_elem_of_singleton.
        destruct (decide (k = (m, n))) as [-> | Hne].
        -- rewrite lookup_insert_eq. cbn. rewrite ?Hf. split.
           ++ intros [= <-]. tauto.
           ++ intros [_ [= <-]]. reflexivity.
        -- rewrite lookup_insert_ne by done. rewrite (Hcache k v'). tauto.
      * by rewrite ?Hf.
      * unfold expected_line. cbn. rewrite ?Hf. by rewrite decide_False.
Qed.

(** X18. The function made by [compute] returns, call after call, what
    the wrapped function returns on the same arguments. Its cache holds
    the results of exactly the calls that returned, a call that raised
    leaving no entry; a call is answered from the cache, and says so,
    exactly when an earlier call with the same arguments returned. *)
Theorem cache_returns_what_f_returns {E} (f : Z -> Z -> E + Z)
    (keys : list (Z * Z)) :
  (calls_f2 f keys ∅).1.*2 = (fun k => f k.1 k.2) <$> keys
  /\ (forall k v, (calls_f2 f keys ∅).2 !! k = Some v <->
                  k ∈ keys /\ f k.1 k.2 = inr v)
  /\ (forall i k, keys !! i = Some k ->
        (calls_f2 f keys ∅).1.*1 !! i = Some (expected_line f (take i keys) k)).
Proof.
  assert (Hempty : cache_of f [] ∅).
  { intros k v. rewrite lookup_empty. split; [discriminate |].
    intros [Hin _]. by apply not_elem_of_nil in Hin. }
  destruct (calls_f2_spec f keys [] ∅ Hempty) as (Hres & Hcache & Hlines).
  split; [exact Hres |]. split; [exact Hcache | exact Hlines].
Qed.

Lemma calls_counting_spec {E} (f : Z -> Z -> E + Z) (keys : list (Z * Z)) (start : Z) :
  (calls_counting f keys start).1 = (fun k => f k.1 k.2) <$> keys
  /\ (calls_counting f keys start).2 = (start + Z.of_nat (length keys))%Z.
Proof.
  revert start. induction keys as [| k keys IH]; intros start.
  { cbn. split; [reflexivity | lia]. }
  cbn [calls_counting]. unfold Closures.f2_counting. cbv zeta.
  destruct (IH (start + 1)%Z) as [Hres Hcount].
  destruct (calls_counting f keys (start + 1)) as [rs n2]. cbn [fst snd] in *.
  split; [by rewrite Hres |]. rewrite Hcount. cbn [length]. lia.
Qed.

Lemma calls_two_seven_spec (n : Z) (ms : list Z) (t : Z) :
  (calls_two_seven n ms [t]).1 = (fun m => Some (n + m)%Z) <$> ms
  /\ (calls_two_seven n ms [t]).2 = [(t + Z.of_nat (length ms))%Z].
Proof.
  revert t. induction ms as [| m ms IH]; intros t.
  { cbn. split; [reflexivity | f_equal; lia]. }
  cbn [calls_two_seven]. unfold Closures.two_seven_f. cbn [lookup list_lookup insert list_insert].
  destruct (IH (t + 1)%Z) as [Hres Htotal].
  destruct (calls_two_seven n ms [(t + 1)%Z]) as [rs total2]. cbn [fst snd] in *.
  split; [by rewrite Hres |]. rewrite Htotal. f_equal. cbn [length]. lia.
Qed.

(** X19. The counters of the closures count the calls: after any calls of
    the function made by [compute] with [nonlocal], [get_num_times] is
    their number, calls that raised included, and each call returned what
    the wrapped function returns; after any calls of the function made by
    [two_seven(n)], [get_total] is their number and each call returned [n]
    plus its argument. *)
Theorem counters_count_the_calls {E} (f : Z -> Z -> E + Z)
    (keys : list (Z * Z)) (n : Z) (ms : list Z) :
  (calls_counting f keys 0).1 = (fun k => f k.1 k.2) <$> keys
  /\ Closures.get_num_times (calls_counting f keys 0).2 = Z.of_nat (length keys)
  /\ (calls_two_seven n ms [0%Z]).1 = (fun m => Some (n + m)%Z) <$> ms
  /\ Closures.two_seven_get_total (calls_two_seven n ms [0%Z]).2
     = Some (Z.of_nat (length ms)).
Proof.
  destruct (calls_counting_spec f keys 0) as [Hres Hcount].
  destruct (calls_two_seven_spec n ms 0) as [Hres27 Htotal].
  split; [exact Hres |]. split; [unfold Closures.get_num_times; rewrite Hcount; lia |].
  split; [exact Hres27 |]. by rewrite Htotal.
Qed.

(** * The README's [compose] *)

Lemma fold_left_compose_pure {A} (gs : list (A -> A)) (g0 : A -> A) (x : A) :
  fold_left (fun f g => fun y => f (g y)) gs g0 x
  = g0 (fold_right (fun g acc => g acc) x gs).
Proof.
  revert g0. induction gs as [| g gs IH]; intros g0; [reflexivity |].
  cbn [fold_left fold_right]. by rewrite IH.
Qed.

(** X20. The README's [compose] applies its functions from the first to
    the last, [[f, g, h]] being [h(g(f(x)))] as its docstring says, the
    reverse of the order of the notebooks' [compose]; on no function it
    raises [TypeError]. The README's own check holds: its [f], on 7, is
    26. *)
Theorem readme_compose_applies_first_to_last {A} (g : A -> A) (gs : list (A -> A)) :
  (exists c, Readme.compose (g :: gs) = inr c
             /\ forall x, c x = fold_left (fun acc h => h acc) (g :: gs) x)
  /\ (exists msg, Readme.compose (@nil (A -> A)) = inl (TypeError msg))
  /\ (exists c, Readme.f = inr c /\ c 7%Z = 26%Z).
Proof.
  split; [| split; [by eexists | eexists; split; reflexivity]].
  unfold Readme.compose, reduce.
  destruct (rev (g :: gs)) as [| g0 rest] eqn:Hrev.
  { apply (f_equal length) in Hrev. rewrite length_rev in Hrev. discriminate. }
  eexists. split; [reflexivity |]. intros x.
  rewrite fold_left_compose_pure.
  rewrite <- (rev_involutive (g :: gs)), Hrev.
  change (fun (acc : A) (h : A -> A) => h acc)
    with (fun (acc : A) (h : A -> A) => (fun (h' : A -> A) (acc' : A) => h' acc') h acc).
  rewrite <- (fold_left_rev_right (fun (h' : A -> A) (acc' : A) => h' acc')).
  by rewrite rev_involutive.
Qed.

(** ** The tool, replayed *)

Lemma run_epilogue_returns runtime code started_at :
  (CLI.run_epilogue runtime code started_at).2 = inr tt.
Proof. reflexivity. Qed.

(** A command that divides by zero, under the runner of iteration #4: the
    exit code is 7. *)
Lemma runner_returns_0_iff_the_command_returned_witness :
  CLIScenario.parse_args ["divide"; "x"]
    = ([], inr (CLI.mk_Parsed
                  (CLI.mk_Namespace (Some "x") (Some 2%Z) (Some "INFO") (Some None))
                  (Some CLIScenario.divide)))
  /\ CLI.setup_logger "INFO" None
     = ([CLI.Printed "mock setting up logger level=INFO file=None"], inr tt)
  /\ (forall code,
        (CLI.run_epilogue "0.00" code CLIScenario.started_at).2 = inr tt)
  /\ (CLI.runner CLIScenario.parse_args CLIScenario.started_at ["divide"; "x"]
        CLI.setup_logger CLI.error_handler_hook (CLI.run_epilogue "0.00")).2
     = inr 7%Z.
Proof.
  split; [reflexivity |]. split; [reflexivity |].
  split; [intros code; apply run_epilogue_returns |].
  destruct (runner_returns_0_iff_the_command_returned CLIScenario.parse_args
              CLIScenario.started_at ["divide"; "x"] CLI.setup_logger
              (CLI.run_epilogue "0.00")
              (CLI.mk_Parsed
                 (CLI.mk_Namespace (Some "x") (Some 2%Z) (Some "INFO") (Some None))
                 (Some CLIScenario.divide))
              "INFO" None CLIScenario.divide []
              [CLI.Printed "mock setting up logger level=INFO file=None"]
              eq_refl eq_refl eq_refl eq_refl eq_refl
              (fun code => run_epilogue_returns "0.00" code CLIScenario.started_at))
    as [Hresult _].
  rewrite Hresult. vm_compute. reflexivity.
Defined.

(** The same command under the runner of iteration #3. *)
Lemma runner3_raises_after_a_failed_command_witness :
  CLIScenario.parse_args ["divide"; "x"]
    = ([], inr (CLI.mk_Parsed
                  (CLI.mk_Namespace (Some "x") (Some 2%Z) (Some "INFO") (Some None))
                  (Some CLIScenario.divide)))
  /\ CLI.setup_logger "INFO" None
     = ([CLI.Printed "mock setting up logger level=INFO file=None"], inr tt)
  /\ (forall code,
        (CLI.run_epilogue "0.00" code CLIScenario.started_at).2 = inr tt)
  /\ CLI.runner3 CLIScenario.parse_args CLIScenario.started_at ["divide"; "x"]
       CLI.setup_logger (CLI.run_epilogue "0.00")
     = ([CLI.Printed "mock setting up logger level=INFO file=None";
         CLI.Debug (CLI.mk_Namespace (Some "x") (Some 2%Z) (Some "INFO") (Some None));
         CLI.Error (CLI.Raised "ZeroDivisionError" "division by zero");
         CLI.Printed "completed exit-code=1 runtime:0.00 sec"],
        inl (CLI.Raised "UnboundLocalError"
               "local variable 'out' referenced before assignment")).
Proof.
  split; [reflexivity |]. split; [reflexivity |].
  split; [intros code; apply run_epilogue_returns |].
  rewrite (runner3_raises_after_a_failed_command CLIScenario.parse_args
             CLIScenario.started_at ["divide"; "x"] CLI.setup_logger
             (CLI.run_epilogue "0.00")
             (CLI.mk_Parsed
                (CLI.mk_Namespace (Some "x") (Some 2%Z) (Some "INFO") (Some None))
                (Some CLIScenario.divide))
             "INFO" None CLIScenario.divide []
             [CLI.Printed "mock setting up logger level=INFO file=None"]
             eq_refl eq_refl eq_refl eq_refl eq_refl
             (fun code => run_epilogue_returns "0.00" code CLIScenario.started_at)).
  vm_compute. reflexivity.
Defined.
